(** * Phoenix: the log batching and webhook delivery pipeline of [index.js]

    A shallow embedding of the logging part of [index.js] (lines 12-119):
    the module-level queues and flags, [createLogFile], [log],
    [processBotLogQueue], [processSiteLogQueue] and [handleWebhookError],
    together with the part of the Node.js event loop they rely on (armed
    timers and HTTP requests that have not settled yet).

    An [async] function runs synchronously up to its first [await]; what
    follows the [await] runs in a later turn of the event loop.  Each
    [async] function of the source is therefore cut at its [await]s into
    the pieces that run in one turn, and one turn is one [step]. *)

From Stdlib Require Import ZArith Lia.
From stdpp Require Import base list strings.

(** ** Values of the environment *)

(** The line separator ["\n"] of [join('\n')] and of the file lines. *)
Definition newline : string := String (Ascii.ascii_of_nat 10) EmptyString.

(** [Array.prototype.join] on an array of strings. *)
Fixpoint join (sep : string) (l : list string) : string :=
  match l with
  | [] => ""
  | x :: rest =>
      match rest with
      | [] => x
      | _ :: _ => x +:+ sep +:+ join sep rest
      end
  end.

(** A value of [process.env]: [undefined] or a string.  In a condition it
    counts as true when it is a non-empty string. *)
Definition truthy (v : option string) : bool :=
  match v with
  | Some (String _ _) => true
  | _ => false
  end.

(** The two log channels of the module. *)
Inductive channel : Type := Bot | Site.

#[global] Instance channel_eq_dec : EqDecision channel.
Proof. solve_decision. Defined.

(** Lines 20-21: the webhook URLs read from the environment. *)
Record config : Type := {
  webhookURL : option string;
  sharedSiteWebhookURL : option string
}.

(** The error [axios] rejects with: [response] is absent for a transport
    failure and carries the HTTP status otherwise. *)
Record response : Type := { status : Z }.
Record webhookError : Type := {
  err_response : option response;
  message : string
}.

(** How the promise of [axios.post] settles. *)
Inductive settlement : Type :=
| Resolved
| Rejected (e : webhookError).

(** What an armed timer runs when it fires: the [resolve] of the promise
    awaited at line 63 or 84, which resumes the flush cycle of the channel,
    or the arrow function of line 105, which calls [processLogQueue]. *)
Inductive task : Type :=
| DebounceElapsed (c : channel)
| RetryCallback (c : channel).

Record timer : Type := { due : Z; callback : task }.

(** What the module does to the outside world.  [HttpPost c url content] is
    the call [axios.post(url, { content })] of the flush cycle of channel
    [c] (line 69 for [Bot], line 90 for [Site]). *)
Inductive effect : Type :=
| ConsoleLog (line : string)
| ConsoleError (line : string)
| WriteFile (path data : string)
| AppendFile (path data : string)
| HttpPost (c : channel) (url : option string) (content : string).

(** ** The state: module variables and pending work of the event loop *)

Record state : Type := {
  (* lines 13-17 and 24 *)
  currentLogFile : option string;
  botLogQueue : list string;
  siteLogQueue : list string;
  isProcessingBotLogQueue : bool;
  isProcessingSiteLogQueue : bool;
  siteWebhookQueue : list string;
  (* the event loop *)
  now : Z;                       (* time of the current turn, in ms *)
  timers : list timer;           (* armed by setTimeout, not fired yet *)
  requests : list channel        (* axios.post calls awaited, by cycle *)
}.

Definition set_currentLogFile (v : option string) (s : state) : state :=
  {| currentLogFile := v; botLogQueue := botLogQueue s;
     siteLogQueue := siteLogQueue s;
     isProcessingBotLogQueue := isProcessingBotLogQueue s;
     isProcessingSiteLogQueue := isProcessingSiteLogQueue s;
     siteWebhookQueue := siteWebhookQueue s;
     now := now s; timers := timers s; requests := requests s |}.

Definition set_botLogQueue (v : list string) (s : state) : state :=
  {| currentLogFile := currentLogFile s; botLogQueue := v;
     siteLogQueue := siteLogQueue s;
     isProcessingBotLogQueue := isProcessingBotLogQueue s;
     isProcessingSiteLogQueue := isProcessingSiteLogQueue s;
     siteWebhookQueue := siteWebhookQueue s;
     now := now s; timers := timers s; requests := requests s |}.

Definition set_isProcessingBotLogQueue (v : bool) (s : state) : state :=
  {| currentLogFile := currentLogFile s; botLogQueue := botLogQueue s;
     siteLogQueue := siteLogQueue s;
     isProcessingBotLogQueue := v;
     isProcessingSiteLogQueue := isProcessingSiteLogQueue s;
     siteWebhookQueue := siteWebhookQueue s;
     now := now s; timers := timers s; requests := requests s |}.

Definition set_isProcessingSiteLogQueue (v : bool) (s : state) : state :=
  {| currentLogFile := currentLogFile s; botLogQueue := botLogQueue s;
     siteLogQueue := siteLogQueue s;
     isProcessingBotLogQueue := isProcessingBotLogQueue s;
     isProcessingSiteLogQueue := v;
     siteWebhookQueue := siteWebhookQueue s;
     now := now s; timers := timers s; requests := requests s |}.

Definition set_siteWebhookQueue (v : list string) (s : state) : state :=
  {| currentLogFile := currentLogFile s; botLogQueue := botLogQueue s;
     siteLogQueue := siteLogQueue s;
     isProcessingBotLogQueue := isProcessingBotLogQueue s;
     isProcessingSiteLogQueue := isProcessingSiteLogQueue s;
     siteWebhookQueue := v;
     now := now s; timers := timers s; requests := requests s |}.

Definition set_now (v : Z) (s : state) : state :=
  {| currentLogFile := currentLogFile s; botLogQueue := botLogQueue s;
     siteLogQueue := siteLogQueue s;
     isProcessingBotLogQueue := isProcessingBotLogQueue s;
     isProcessingSiteLogQueue := isProcessingSiteLogQueue s;
     siteWebhookQueue := siteWebhookQueue s;
     now := v; timers := timers s; requests := requests s |}.

Definition set_timers (v : list timer) (s : state) : state :=
  {| currentLogFile := currentLogFile s; botLogQueue := botLogQueue s;
     siteLogQueue := siteLogQueue s;
     isProcessingBotLogQueue := isProcessingBotLogQueue s;
     isProcessingSiteLogQueue := isProcessingSiteLogQueue s;
     siteWebhookQueue := siteWebhookQueue s;
     now := now s; timers := v; requests := requests s |}.

Definition set_requests (v : list channel) (s : state) : state :=
  {| currentLogFile := currentLogFile s; botLogQueue := botLogQueue s;
     siteLogQueue := siteLogQueue s;
     isProcessingBotLogQueue := isProcessingBotLogQueue s;
     isProcessingSiteLogQueue := isProcessingSiteLogQueue s;
     siteWebhookQueue := siteWebhookQueue s;
     now := now s; timers := timers s; requests := v |}.

(** ** A monad for one turn of JavaScript code

    A computation reads and writes the state, emits effects in order, and
    either completes normally or throws. *)

Inductive completion (A : Type) : Type :=
| Normal (a : A)
| Throw (err : string).
Arguments Normal {A} a.
Arguments Throw {A} err.

Definition M (A : Type) : Type := state -> completion A * state * list effect.

#[global] Instance M_ret : MRet M := fun A a s => (Normal a, s, []).

#[global] Instance M_bind : MBind M := fun A B k m s =>
  match m s with
  | (Normal a, s1, e1) =>
      match k a s1 with
      | (r, s2, e2) => (r, s2, e1 ++ e2)
      end
  | (Throw err, s1, e1) => (Throw err, s1, e1)
  end.

Definition read {A : Type} (f : state -> A) : M A :=
  fun s => (Normal (f s), s, []).

Definition write (f : state -> state) : M unit :=
  fun s => (Normal tt, f s, []).

Definition emit (e : effect) : M unit :=
  fun s => (Normal tt, s, [e]).

Definition throw {A : Type} (err : string) : M A :=
  fun s => (Throw err, s, []).

Definition console_log (line : string) : M unit := emit (ConsoleLog line).
Definition console_error (line : string) : M unit := emit (ConsoleError line).

(** [fs.appendFileSync(path, data)].  [failure] is what the file system
    answers: [None] when the data is appended, [Some err] when the call
    throws [err].  An [undefined] path is refused before anything is
    written. *)
Definition appendFileSync (path : option string) (data : string)
    (failure : option string) : M unit :=
  match path with
  | None => throw "ERR_INVALID_ARG_TYPE"
  | Some p =>
      match failure with
      | None => emit (AppendFile p data)
      | Some err => throw err
      end
  end.

(** [setTimeout(callback, delay)]: the timer is due [delay] ms after the
    current turn. *)
Definition setTimeout (cb : task) (delay : Z) : M unit :=
  write (fun s => set_timers (timers s ++ [{| due := (now s + delay)%Z;
                                              callback := cb |}]) s).

(** [axios.post(url, { content })] followed by [await]: the request leaves
    and the cycle of channel [c] is suspended until it settles. *)
Definition axios_post (c : channel) (url : option string) (content : string)
    : M unit :=
  emit (HttpPost c url content) ;;
  write (fun s => set_requests (requests s ++ [c]) s).

(** ** The functions of [index.js] *)

(** Line 12.  [path.join(logsFolder, name)] normalises ["./logs"] and
    [name] to ["logs/" + name]. *)
Definition logsFolder : string := "./logs".
Definition path_join_logsFolder (name : string) : string := "logs/" +:+ name.

(** Lines 27-31.  [timestamp] is [format(new Date(), 'yyyy-MM-dd_HH-mm-ss')]. *)
Definition createLogFile (timestamp : string) : M unit :=
  let path := path_join_logsFolder (timestamp +:+ ".log") in
  write (set_currentLogFile (Some path)) ;;
  emit (WriteFile path ("Log started at: " +:+ timestamp +:+ newline +:+ newline)).

(** Line 102: [webhookError.response && webhookError.response.status === 429]. *)
Definition rate_limited (e : webhookError) : bool :=
  match err_response e with
  | Some r => (status r =? 429)%Z
  | None => false
  end.

(** Lines 101-111.  The argument [processLogQueue] is [processBotLogQueue]
    or [processSiteLogQueue]; it is given here by its channel.  The
    argument [logQueue] is not used by the source. *)
Definition handleWebhookError (e : webhookError) (processLogQueue : channel)
    : M unit :=
  if rate_limited e then
    console_log "Rate limited. Retrying after 5 seconds..." ;;
    setTimeout (RetryCallback processLogQueue) 5000
  else
    console_error ("Error logging to webhook: " +:+ message e).

(** Lines 59-63: [processBotLogQueue] up to its first [await]. *)
Definition processBotLogQueue : M unit :=
  write (set_isProcessingBotLogQueue true) ;;
  setTimeout (DebounceElapsed Bot) 500.

(** Lines 65-69 and 76: [processBotLogQueue] from the end of the debounce
    wait to the [await] of the request, or to its end when the queue is
    empty. *)
Definition processBotLogQueue_afterDebounce (cfg : config) : M unit :=
  q ← read botLogQueue;
  if (0 <? length q)%nat then
    let logs := join newline q in
    write (set_botLogQueue []) ;;
    axios_post Bot (webhookURL cfg) logs
  else
    write (set_isProcessingBotLogQueue false).

(** Lines 70-76: [processBotLogQueue] once the request has settled. *)
Definition processBotLogQueue_afterPost (r : settlement) : M unit :=
  match r with
  | Resolved => console_log "Logged to bot webhook successfully."
  | Rejected webhookError => handleWebhookError webhookError Bot
  end ;;
  write (set_isProcessingBotLogQueue false).

(** Lines 80-84. *)
Definition processSiteLogQueue : M unit :=
  write (set_isProcessingSiteLogQueue true) ;;
  setTimeout (DebounceElapsed Site) 500.

(** Lines 86-90 and 97. *)
Definition processSiteLogQueue_afterDebounce (cfg : config) : M unit :=
  q ← read siteWebhookQueue;
  if (0 <? length q)%nat then
    let logs := join newline q in
    write (set_siteWebhookQueue []) ;;
    axios_post Site (sharedSiteWebhookURL cfg) logs
  else
    write (set_isProcessingSiteLogQueue false).

(** Lines 91-97. *)
Definition processSiteLogQueue_afterPost (r : settlement) : M unit :=
  match r with
  | Resolved => console_log "Logged to site webhook successfully."
  | Rejected webhookError => handleWebhookError webhookError Site
  end ;;
  write (set_isProcessingSiteLogQueue false).

(** Line 36: the formatted line. *)
Definition formatted (timestamp message : string) : string :=
  "[" +:+ timestamp +:+ "] " +:+ message.

(** Lines 34-56.  [timestamp] is [format(new Date(), 'yyyy-MM-dd HH:mm:ss')]
    and [fs_failure] the answer of the file system to the append.  [log]
    has no [await]: its whole body runs in the turn of the call, and the
    promise it returns is fulfilled when the body completes normally and
    rejected with the error when it throws. *)
Definition log (cfg : config) (message : string) (isSiteRelated : bool)
    (timestamp : string) (fs_failure : option string) : M unit :=
  let formattedMessage := formatted timestamp message in
  console_log formattedMessage ;;
  path ← read currentLogFile;
  appendFileSync path (formattedMessage +:+ newline) fs_failure ;;
  (if negb isSiteRelated && truthy (webhookURL cfg) then
     write (fun s => set_botLogQueue (botLogQueue s ++ [formattedMessage]) s) ;;
     busy ← read isProcessingBotLogQueue;
     if negb busy then processBotLogQueue else mret tt
   else mret tt) ;;
  (if isSiteRelated && truthy (sharedSiteWebhookURL cfg) then
     write (fun s => set_siteWebhookQueue (siteWebhookQueue s ++ [formattedMessage]) s) ;;
     busy ← read isProcessingSiteLogQueue;
     if negb busy then processSiteLogQueue else mret tt
   else mret tt).

(** ** The event loop *)

(** One turn: a call of [log] by the application, an armed timer firing,
    or a request settling.  [at_ms] is the time of the turn; timers and
    requests are chosen by their position in the pending lists. *)
Inductive event : Type :=
| CallLog (at_ms : Z) (message : string) (isSiteRelated : bool)
    (timestamp : string) (fs_failure : option string)
| TimerFires (at_ms : Z) (i : nat)
| PostSettles (at_ms : Z) (i : nat) (r : settlement).

Definition run_task (cfg : config) (t : task) : M unit :=
  match t with
  | DebounceElapsed Bot => processBotLogQueue_afterDebounce cfg
  | DebounceElapsed Site => processSiteLogQueue_afterDebounce cfg
  | RetryCallback Bot => processBotLogQueue
  | RetryCallback Site => processSiteLogQueue
  end.

Definition resume_afterPost (c : channel) (r : settlement) : M unit :=
  match c with
  | Bot => processBotLogQueue_afterPost r
  | Site => processSiteLogQueue_afterPost r
  end.

(** The state and the effects of a turn; the completion of [log] is what
    its caller receives and is not seen by the event loop. *)
Definition turn (m : M unit) (s : state) : state * list effect :=
  match m s with
  | (_, s', effs) => (s', effs)
  end.

(** [step] is [None] for a turn that cannot happen: time running
    backwards, a timer that is not armed or fires before it is due, a
    request that is not pending. *)
Definition step (cfg : config) (s : state) (ev : event)
    : option (state * list effect) :=
  match ev with
  | CallLog at_ms message isSiteRelated timestamp fs_failure =>
      if (now s <=? at_ms)%Z then
        Some (turn (log cfg message isSiteRelated timestamp fs_failure)
                (set_now at_ms s))
      else None
  | TimerFires at_ms i =>
      match timers s !! i with
      | Some t =>
          if ((now s <=? at_ms) && (due t <=? at_ms))%Z then
            Some (turn (run_task cfg (callback t))
                    (set_now at_ms (set_timers (delete i (timers s)) s)))
          else None
      | None => None
      end
  | PostSettles at_ms i r =>
      match requests s !! i with
      | Some c =>
          if (now s <=? at_ms)%Z then
            Some (turn (resume_afterPost c r)
                    (set_now at_ms (set_requests (delete i (requests s)) s)))
          else None
      | None => None
      end
  end.

Fixpoint run (cfg : config) (s : state) (evs : list event)
    : option (state * list effect) :=
  match evs with
  | [] => Some (s, [])
  | ev :: rest =>
      match step cfg s ev with
      | Some (s1, e1) =>
          match run cfg s1 rest with
          | Some (s2, e2) => Some (s2, e1 ++ e2)
          | None => None
          end
      | None => None
      end
  end.

(** Lines 13-17 and 24: the module variables as declared, at time [t0]. *)
Definition module_loaded (t0 : Z) : state :=
  {| currentLogFile := None; botLogQueue := []; siteLogQueue := [];
     isProcessingBotLogQueue := false; isProcessingSiteLogQueue := false;
     siteWebhookQueue := []; now := t0; timers := []; requests := [] |}.

(** Line 119: the state once [createLogFile()] has run at load time. *)
Definition startup (t0 : Z) (timestamp : string) : state :=
  fst (turn (createLogFile timestamp) (module_loaded t0)).

(** ** Views of the state by channel *)

Definition queue_of (c : channel) (s : state) : list string :=
  match c with Bot => botLogQueue s | Site => siteWebhookQueue s end.

Definition flag_of (c : channel) (s : state) : bool :=
  match c with
  | Bot => isProcessingBotLogQueue s
  | Site => isProcessingSiteLogQueue s
  end.

Definition url_of (c : channel) (cfg : config) : option string :=
  match c with Bot => webhookURL cfg | Site => sharedSiteWebhookURL cfg end.

(** [isSiteRelated] of the calls of [log] that feed channel [c]. *)
Definition site_related (c : channel) : bool :=
  match c with Bot => false | Site => true end.

Definition success_line (c : channel) : string :=
  match c with
  | Bot => "Logged to bot webhook successfully."
  | Site => "Logged to site webhook successfully."
  end.

(** Equality of channels as a boolean, for counting. *)
Definition channel_eqb (a b : channel) : bool :=
  match a, b with
  | Bot, Bot | Site, Site => true
  | _, _ => false
  end.

(** [t] ends the debounce wait of a cycle of channel [c]. *)
Definition debounce_of (c : channel) (t : timer) : bool :=
  match callback t with
  | DebounceElapsed c' => channel_eqb c c'
  | RetryCallback _ => false
  end.

(** The flush cycles of channel [c] that have started and not finished:
    those waiting for the debounce timer and those waiting for their
    request. *)
Definition cycles_in_flight (c : channel) (s : state) : nat :=
  length (List.filter (debounce_of c) (timers s)) +
  length (List.filter (channel_eqb c) (requests s)).

(** The requests of channel [c] that have not settled. *)
Definition deliveries_in_flight (c : channel) (s : state) : nat :=
  length (List.filter (channel_eqb c) (requests s)).

(** The requests of channel [c] among the effects, in order. *)
Fixpoint posts_of (c : channel) (effs : list effect)
    : list (option string * string) :=
  match effs with
  | [] => []
  | HttpPost c' url content :: rest =>
      if bool_decide (c' = c) then (url, content) :: posts_of c rest
      else posts_of c rest
  | _ :: rest => posts_of c rest
  end.


(** Updates of the queue and the flag of a channel. *)
Definition set_queue (c : channel) (q : list string) (s : state) : state :=
  match c with
  | Bot => set_botLogQueue q s
  | Site => set_siteWebhookQueue q s
  end.

Definition set_flag (c : channel) (b : bool) (s : state) : state :=
  match c with
  | Bot => set_isProcessingBotLogQueue b s
  | Site => set_isProcessingSiteLogQueue b s
  end.

Definition other (c : channel) : channel :=
  match c with Bot => Site | Site => Bot end.

Definition debounce_timer (at_ms : Z) (c : channel) : timer :=
  {| due := (at_ms + 500)%Z; callback := DebounceElapsed c |}.

Definition retry_timer (at_ms : Z) (c : channel) : timer :=
  {| due := (at_ms + 5000)%Z; callback := RetryCallback c |}.

Definition local_lines (path timestamp message : string) : list effect :=
  [ConsoleLog (formatted timestamp message);
   AppendFile path (formatted timestamp message +:+ newline)].

(** A call of [log] as the application makes it: time of the call,
    message, and the timestamp [format] returns. *)
Record call : Type := {
  call_at : Z;
  call_message : string;
  call_timestamp : string
}.

Definition call_line (k : call) : string :=
  formatted (call_timestamp k) (call_message k).

(** The turn of a call that feeds channel [c] and whose append succeeds. *)
Definition call_event (c : channel) (k : call) : event :=
  CallLog (call_at k) (call_message k) (site_related c) (call_timestamp k) None.

(** The calls happen in this order, none before [lo], none after [hi]. *)
Fixpoint ordered (lo : Z) (calls : list call) (hi : Z) : Prop :=
  match calls with
  | [] => (lo <= hi)%Z
  | k :: rest => (lo <= call_at k)%Z /\ ordered (call_at k) rest hi
  end.

(** The lines the calls of [log] in [evs] append to the queue of channel
    [c] when its URL is set: those of the calls for that channel whose
    local write succeeded. *)
Fixpoint entries_of (c : channel) (evs : list event) : list string :=
  match evs with
  | [] => []
  | CallLog _ message isSiteRelated timestamp None :: rest =>
      if bool_decide (isSiteRelated = site_related c)
      then formatted timestamp message :: entries_of c rest
      else entries_of c rest
  | _ :: rest => entries_of c rest
  end.

(** The channel whose code runs in a turn. *)
Definition owner (s : state) (ev : event) : option channel :=
  match ev with
  | CallLog _ _ isSiteRelated _ _ => Some (if isSiteRelated then Site else Bot)
  | TimerFires _ i =>
      match timers s !! i with
      | Some t =>
          match callback t with
          | DebounceElapsed c => Some c
          | RetryCallback c => Some c
          end
      | None => None
      end
  | PostSettles _ i _ => requests s !! i
  end.

(** Channel [c] has no pending work: nothing queued, flag clear, no timer
    and no request of its own. *)
Definition quiet (c : channel) (s : state) : Prop :=
  queue_of c s = [] /\ flag_of c s = false /\
  Forall (fun t => callback t <> DebounceElapsed c /\
                   callback t <> RetryCallback c) (timers s) /\
  Forall (fun c' => c' <> c) (requests s).

(** Both channels busy: each has a line queued and its debounce timer
    armed. *)
Definition both_channels_busy : state :=
  {| currentLogFile := Some "logs/run.log";
     botLogQueue := ["[t] b"]; siteLogQueue := [];
     isProcessingBotLogQueue := true; isProcessingSiteLogQueue := true;
     siteWebhookQueue := ["[t] s"]; now := 600;
     timers := [debounce_timer 200 Site; debounce_timer 300 Bot];
     requests := [] |}.

(** What the completion of [log] is for its caller. *)
Definition completion_of (failure : option string) : completion unit :=
  match failure with
  | None => Normal tt
  | Some err => Throw err
  end.

(** ** Concrete configurations, errors and states used in examples *)

Definition both_hooks : config :=
  {| webhookURL := Some "https://hook/bot";
     sharedSiteWebhookURL := Some "https://hook/site" |}.

Definition bot_hook_only : config :=
  {| webhookURL := Some "https://hook/bot"; sharedSiteWebhookURL := None |}.

Definition too_many_requests : webhookError :=
  {| err_response := Some {| status := 429 |};
     message := "Request failed with status code 429" |}.

Definition server_error : webhookError :=
  {| err_response := Some {| status := 500 |};
     message := "Request failed with status code 500" |}.

Definition network_error : webhookError :=
  {| err_response := None; message := "connect ECONNREFUSED" |}.

(** A bot request is awaited and one line arrived meanwhile. *)
Definition awaiting_bot_post : state :=
  {| currentLogFile := Some "logs/run.log";
     botLogQueue := ["[t] late"]; siteLogQueue := [];
     isProcessingBotLogQueue := true; isProcessingSiteLogQueue := false;
     siteWebhookQueue := []; now := 600; timers := [];
     requests := [Bot] |}.

(** The state right after start-up in the examples. *)
Definition fresh : state := startup 0 "2024-01-01_00-00-00".

Definition call_X : call :=
  {| call_at := 10; call_message := "X"; call_timestamp := "t" |}.
Definition call_Y : call :=
  {| call_at := 20; call_message := "Y"; call_timestamp := "t" |}.
Definition call_B : call :=
  {| call_at := 550; call_message := "B"; call_timestamp := "t" |}.

(** A line is logged while a request is awaited; the request succeeds. *)
Definition line_logged_during_request : list event :=
  [CallLog 0 "A" false "t" None;
   TimerFires 500 0;
   CallLog 550 "B" false "t" None;
   PostSettles 600 0 Resolved].


(** A batch is answered with 429, the retry fires after the backoff and
    its debounce wait ends. *)
Definition retried_run : list event :=
  [CallLog 0 "A" false "t" None;
   TimerFires 500 0;
   CallLog 550 "B" false "t" None;
   PostSettles 600 0 (Rejected too_many_requests);
   TimerFires 5600 0;
   TimerFires 6100 0].

(** A bot cycle is waiting for its debounce timer with one line queued. *)
Definition bot_debouncing : state :=
  {| currentLogFile := Some "logs/run.log";
     botLogQueue := ["[t] A"]; siteLogQueue := [];
     isProcessingBotLogQueue := true; isProcessingSiteLogQueue := false;
     siteWebhookQueue := []; now := 0;
     timers := [debounce_timer 0 Bot]; requests := [] |}.

(** A call of [log] during the backoff after a 429 response:
    - at 0 the first call starts a cycle (debounce timer due at 500);
    - at 500 the cycle sends "A";
    - at 600 the answer is 429: the retry is armed for 5600 and the flag is
      cleared;
    - at 5400 a call finds the flag clear and starts a cycle (debounce timer
      due at 5900);
    - at 5600 the retry fires and starts another cycle (debounce timer due
      at 6100) although one is waiting;
    - at 5900 the first of the two sends "B";
    - at 6000 a call queues "C";
    - at 6100 the second sends "C" while the request for "B" is awaited. *)
Definition overlapping_run : list event :=
  [CallLog 0 "A" false "t" None;
   TimerFires 500 0;
   PostSettles 600 0 (Rejected too_many_requests);
   CallLog 5400 "B" false "t" None;
   TimerFires 5600 0;
   TimerFires 5900 0;
   CallLog 6000 "C" false "t" None;
   TimerFires 6100 0].

(** The turn handles a 429 response. *)
Definition rate_limit_response (ev : event) : bool :=
  match ev with
  | PostSettles _ _ (Rejected e) => rate_limited e
  | _ => false
  end.

(** The flag of channel [c] tells whether a cycle of [c] is in flight, and
    no retry of [c] is armed. *)
Definition gated (c : channel) (s : state) : Prop :=
  Forall (fun t => callback t <> RetryCallback c) (timers s) /\
  cycles_in_flight c s = (if flag_of c s then 1%nat else 0%nat).

(** ** The log file of a run *)

(** The lines of the calls of [log] whose append succeeded, whatever the
    channel, in call order. *)
Fixpoint logged_lines (evs : list event) : list string :=
  match evs with
  | [] => []
  | CallLog _ message _ timestamp None :: rest =>
      formatted timestamp message :: logged_lines rest
  | _ :: rest => logged_lines rest
  end.

(** The writes to files among the effects, in order. *)
Fixpoint file_effects (effs : list effect) : list effect :=
  match effs with
  | [] => []
  | WriteFile p d :: rest => WriteFile p d :: file_effects rest
  | AppendFile p d :: rest => AppendFile p d :: file_effects rest
  | _ :: rest => file_effects rest
  end.

(** The content of the file [path] once the effects have happened, from
    its content [before] ([None]: no such file).  [fs.writeFileSync]
    replaces the content; [fs.appendFileSync] adds to it and creates the
    file when it is missing. *)
Fixpoint file_content (path : string) (effs : list effect)
    (before : option string) : option string :=
  match effs with
  | [] => before
  | WriteFile p d :: rest =>
      file_content path rest (if String.eqb p path then Some d else before)
  | AppendFile p d :: rest =>
      file_content path rest
        (if String.eqb p path then Some (default "" before +:+ d) else before)
  | _ :: rest => file_content path rest before
  end.

(** The lines as the file holds them, each followed by a newline. *)
Fixpoint lines_text (lines : list string) : string :=
  match lines with
  | [] => ""
  | l :: rest => (l +:+ newline) +:+ lines_text rest
  end.

(** ** A channel at rest *)

(** No cycle of channel [c] is in flight and no retry of [c] is armed. *)
Definition idle (c : channel) (s : state) : Prop :=
  cycles_in_flight c s = 0%nat /\
  Forall (fun t => callback t <> RetryCallback c) (timers s).

(** The turn is a call of [log] for channel [c]. *)
Definition feeds (c : channel) (ev : event) : bool :=
  match ev with
  | CallLog _ _ isSiteRelated _ _ => bool_decide (isSiteRelated = site_related c)
  | _ => false
  end.

(** ** Calls of [log] by the rest of [index.js]

    Every call of [log] in [index.js] passes the message alone, so
    [isSiteRelated] takes its default [false], and none is awaited. *)




(** ** Commands: loading, registration, dispatch (lines 135-247) *)

(** The double quote character of the message of line 172. *)
Definition quote : string := String (Ascii.ascii_of_nat 34) EmptyString.

(** [s.endsWith(suffix)]. *)
Definition endsWith (s suffix : string) : bool :=
  let n := String.length s in
  let k := String.length suffix in
  (k <=? n)%nat && String.eqb (String.substring (n - k) k s) suffix.

(** The [data] a command file exports, as [commands/setjobs.js] has it. *)
Record command_data : Type := {
  data_name : string;
  data_description : string
}.

(** What [typeof command.setup === 'function'] and the call
    [command.setup(client, log)] come to: the file exports no such
    function, or the call returns, or it throws. *)
Inductive setup_field : Type :=
| NoSetup
| SetupReturns
| SetupThrows (error : string).

(** What [require] yields for a command file: [data] may be [undefined]. *)
Record command_module : Type := {
  module_setup : setup_field;
  module_data : option command_data
}.

(** What the code does to its collaborators.  A thrown value is carried
    as the text its interpolation in a template literal gives. *)
Inductive action : Type :=
| Log (message : string)
| Require (path : string)
| Setup (path : string)
| PutCommands (route : string) (body : list (option command_data))
| Spawn (command : string) (args : list string)
| Execute (path : string)
| Reply (content : string).

(** Computations over the array [commands] of line 135. *)
Definition K (A : Type) : Type :=
  list (option command_data) ->
  completion A * list (option command_data) * list action.

#[global] Instance K_ret : MRet K := fun A a cs => (Normal a, cs, []).

#[global] Instance K_bind : MBind K := fun A B k m cs =>
  match m cs with
  | (Normal a, cs1, a1) =>
      match k a cs1 with
      | (r, cs2, a2) => (r, cs2, a1 ++ a2)
      end
  | (Throw err, cs1, a1) => (Throw err, cs1, a1)
  end.

Definition act (a : action) : K unit := fun cs => (Normal tt, cs, [a]).

Definition kthrow {A : Type} (err : string) : K A :=
  fun cs => (Throw err, cs, []).

(** [try { body } catch (error) { handler }]: what the body did before it
    threw stays done. *)
Definition try_catch {A : Type} (body : K A) (handler : string -> K A) : K A :=
  fun cs =>
    match body cs with
    | (Normal a, cs1, a1) => (Normal a, cs1, a1)
    | (Throw err, cs1, a1) =>
        match handler err cs1 with
        | (r, cs2, a2) => (r, cs2, a1 ++ a2)
        end
    end.

(** [for (const x of l) { body }]. *)
Fixpoint for_of {A : Type} (l : list A) (body : A -> K unit) : K unit :=
  match l with
  | [] => mret tt
  | x :: rest => body x ;; for_of rest body
  end.

(** A call of an [async] function that is not awaited: a rejection does
    not reach the caller. *)
Definition not_awaited (m : K unit) : K unit :=
  fun cs =>
    match m cs with
    | (_, cs1, a1) => (Normal tt, cs1, a1)
    end.

(** An operation of a collaborator that returns or throws. *)
Definition outcome (failure : option string) : K unit :=
  match failure with
  | None => mret tt
  | Some err => kthrow err
  end.

(** An operation of a collaborator that returns a value or throws. *)
Definition returned {A : Type} (r : completion A) : K A :=
  match r with
  | Normal a => mret a
  | Throw err => kthrow err
  end.

(** [commands.push(data)]. *)
Definition push (data : option command_data) : K unit :=
  fun cs => (Normal tt, cs ++ [data], []).

(** The array [commands] as it is now. *)
Definition read_commands : K (list (option command_data)) :=
  fun cs => (Normal cs, cs, []).

(** What [loadCommands] finds on disk. *)
Record loader_env : Type := {
  existsSync : string -> bool;
  readdirSync : string -> completion (list string);
  (* [require(path)] followed by the read of [command.setup] *)
  required : string -> completion command_module
}.

Definition commandsFolder : string := "./commands".

(** Lines 190-205: the body of the loop for one file. *)
Definition loadCommand (env : loader_env) (file : string) : K unit :=
  try_catch
    (let path := "./commands/" +:+ file in
     act (Require path) ;;
     (command ← returned (required env path);
      (match module_setup command with
       | NoSetup =>
           act (Log ("Invalid command structure in " +:+ file +:+ "."))
       | SetupReturns =>
           act (Setup path) ;;
           act (Log ("Command " +:+ file +:+ " loaded successfully."))
       | SetupThrows err => act (Setup path) ;; kthrow err
       end) ;;
      push (module_data command)))
    (fun error =>
       act (Log ("Error loading command from " +:+ file +:+ ": " +:+ error))).

(** Lines 179-209.  [loadCommands] has no [await]: its body runs in the
    turn of the call. *)
Definition loadCommands (env : loader_env) : K unit :=
  try_catch
    ((if negb (existsSync env commandsFolder)
      then kthrow "Error: Commands folder not found."
      else mret tt) ;;
     (files ← returned (readdirSync env commandsFolder);
      let commandFiles :=
        List.filter (fun file => endsWith file ".js") files in
      for_of commandFiles (loadCommand env)))
    (fun error => act (Log ("Error during command loading: " +:+ error))).

(** What [client.application?.fetch()] followed by [application.id] comes
    to: [client.application] is [null] and reading [id] of [undefined]
    throws, or the fetch rejects, or the identifier is there. *)
Inductive fetch_outcome : Type :=
| NoApplication (type_error : string)
| FetchRejects (error : string)
| Fetched (id : string).

Record refresh_env : Type := {
  application : fetch_outcome;
  put_failure : option string
}.

(** [Routes.applicationCommands(id)] of discord-api-types. *)
Definition applicationCommands (id : string) : string :=
  "/applications/" +:+ id +:+ "/commands".

(** Lines 211-230, the two [await]s taken in sequence. *)
Definition refreshSlashCommands (env : refresh_env) : K unit :=
  try_catch
    (act (Log "Started refreshing global (/) commands.") ;;
     (id ← (match application env with
            | NoApplication err => kthrow err
            | FetchRejects err => kthrow err
            | Fetched id => mret id
            end);
      (body ← read_commands;
       act (PutCommands (applicationCommands id) body) ;;
       outcome (put_failure env) ;;
       act (Log "Successfully reloaded global (/) commands."))))
    (fun error =>
       act (Log ("Error refreshing global (/) commands: " +:+ error))).

(** Lines 233-247: the call of [spawn]; the three listeners it installs
    write what the child prints, and its exit code, to the console. *)
Definition startSiteServer (spawn_failure : option string) : K unit :=
  act (Spawn "node" ["site/serve.js"]) ;;
  outcome spawn_failure.

Record ready_env : Type := {
  user_tag : string;
  loader : loader_env;
  refresher : refresh_env;
  spawn_failure : option string
}.

(** Lines 137-152: the handler of [ready]. *)
Definition onReady (env : ready_env) : K unit :=
  try_catch
    (act (Log ("Logged in as " +:+ user_tag env)) ;;
     not_awaited (loadCommands (loader env)) ;;
     refreshSlashCommands (refresher env) ;;
     startSiteServer (spawn_failure env))
    (fun error => act (Log ("Error during startup: " +:+ error))).

(** An interaction as the handler of [interactionCreate] sees it, with
    what becomes of the handler of the command and of the reply. *)
Record interaction : Type := {
  isCommand : bool;
  commandName : string;
  execute_failure : option string;
  reply_failure : option string
}.

(** Lines 161-169: the module whose [execute] handles the command. *)
Definition handler_of (commandName : string) : option string :=
  if String.eqb commandName "ping" then Some "./commands/ping"
  else if String.eqb commandName "hello" then Some "./commands/hello"
  else if String.eqb commandName "help" then Some "./commands/help"
  else if String.eqb commandName "info" then Some "./commands/info"
  else None.

(** Lines 154-175: the handler of [interactionCreate]. *)
Definition onInteractionCreate (i : interaction) : K unit :=
  if negb (isCommand i) then mret tt
  else
    try_catch
      (match handler_of (commandName i) with
       | Some path => act (Execute path) ;; outcome (execute_failure i)
       | None => mret tt
       end)
      (fun error =>
         act (Log ("Error handling command " +:+ quote +:+ commandName i
                   +:+ quote +:+ ": " +:+ error)) ;;
         act (Reply "An error occurred while processing the command.") ;;
         outcome (reply_failure i)).

(** The messages passed to [log], in order. *)
Fixpoint log_messages (acts : list action) : list string :=
  match acts with
  | [] => []
  | Log message :: rest => message :: log_messages rest
  | _ :: rest => log_messages rest
  end.

(** [commands/setjobs.js]: it exports [data] and [execute], no [setup]. *)
Definition setjobs : command_module :=
  {| module_setup := NoSetup;
     module_data := Some {| data_name := "setjobs";
                            data_description :=
                              "Select the jobs which apply to you" |} |}.

(** What [loadCommands] reports for a file and what it adds to
    [commands]. *)
Definition report (env : loader_env) (file : string) : string :=
  match required env ("./commands/" +:+ file) with
  | Throw err => "Error loading command from " +:+ file +:+ ": " +:+ err
  | Normal m =>
      match module_setup m with
      | NoSetup => "Invalid command structure in " +:+ file +:+ "."
      | SetupReturns => "Command " +:+ file +:+ " loaded successfully."
      | SetupThrows err =>
          "Error loading command from " +:+ file +:+ ": " +:+ err
      end
  end.

Definition registered (env : loader_env) (file : string)
    : option (option command_data) :=
  match required env ("./commands/" +:+ file) with
  | Throw _ => None
  | Normal m =>
      match module_setup m with
      | SetupThrows _ => None
      | _ => Some (module_data m)
      end
  end.

(** A folder that holds [setjobs.js] and a text file. *)
Definition setjobs_folder : loader_env :=
  {| existsSync := fun _ => true;
     readdirSync := fun _ => Normal ["readme.md"; "setjobs.js"];
     required := fun path =>
       if String.eqb path "./commands/setjobs.js" then Normal setjobs
       else Throw "Error: Cannot find module" |}.

(** A folder with a command that loads, one whose [setup] throws, one
    that cannot be required and one without [setup]. *)
Definition mixed_folder : loader_env :=
  {| existsSync := fun _ => true;
     readdirSync := fun _ =>
       Normal ["ping.js"; "broken.js"; "notes.txt"; "missing.js"; "setjobs.js"];
     required := fun path =>
       if String.eqb path "./commands/ping.js"
       then Normal {| module_setup := SetupReturns;
                      module_data := Some {| data_name := "ping";
                                             data_description := "Ping" |} |}
       else if String.eqb path "./commands/broken.js"
       then Normal {| module_setup := SetupThrows "Error: boom";
                      module_data := None |}
       else if String.eqb path "./commands/setjobs.js" then Normal setjobs
       else Throw "Error: Cannot find module" |}.

(** ** An open debounce window *)


Definition set_siteLogQueue (v : list string) (s : state) : state :=
  {| currentLogFile := currentLogFile s; botLogQueue := botLogQueue s;
     siteLogQueue := v;
     isProcessingBotLogQueue := isProcessingBotLogQueue s;
     isProcessingSiteLogQueue := isProcessingSiteLogQueue s;
     siteWebhookQueue := siteWebhookQueue s;
     now := now s; timers := timers s; requests := requests s |}.

(** ** Proof automation *)

(** Rewrites the time tests of [step] that the hypotheses decide. *)
Ltac leb_true :=
  repeat match goal with
  | H : (?a <= ?b)%Z |- context [(?a <=? ?b)%Z] =>
      rewrite (proj2 (Z.leb_le a b) H)
  end.

(** Exposes the code of a turn down to the state and the effects. *)
Ltac unfold_turn :=
  unfold step, turn, log, run_task, resume_afterPost,
    processBotLogQueue_afterDebounce, processSiteLogQueue_afterDebounce,
    processBotLogQueue_afterPost, processSiteLogQueue_afterPost,
    processBotLogQueue, processSiteLogQueue, handleWebhookError,
    appendFileSync, axios_post, setTimeout, console_log, console_error,
    emit, read, write, throw, mbind, mret, M_bind, M_ret.

Ltac unfold_turn_in H :=
  unfold step, turn, log, run_task, resume_afterPost,
    processBotLogQueue_afterDebounce, processSiteLogQueue_afterDebounce,
    processBotLogQueue_afterPost, processSiteLogQueue_afterPost,
    processBotLogQueue, processSiteLogQueue, handleWebhookError,
    appendFileSync, axios_post, setTimeout, console_log, console_error,
    emit, read, write, throw, mbind, mret, M_bind, M_ret in H.

(** Case analysis on a turn [H : step cfg s ev = Some (s', effs)]. *)
Ltac step_inv H :=
  unfold_turn_in H; cbn in H;
  repeat (case_match; cbn in H; simplify_eq); simplify_eq.

(** Membership of a request in a short list of effects. *)
Ltac solve_mem H :=
  repeat (apply elem_of_cons in H as [H|H]);
  first [ discriminate H
        | injection H as -> -> ->; reflexivity
        | apply elem_of_nil in H; contradiction ].

(** Runs a turn again under the tests already decided in the context. *)
Ltac recompute :=
  unfold_turn; cbn in *; subst;
  repeat match goal with
  | Hx : ?x = _ |- context [?x] => rewrite Hx; cbn
  end;
  try reflexivity.

(** Membership in a short explicit list, case by case. *)
Ltac mem_cases H :=
  repeat (apply elem_of_cons in H as [H|H]);
  try (apply elem_of_nil in H; contradiction);
  try discriminate H.

(** Exposes a computation over [commands]. *)
Ltac unfold_k :=
  unfold loadCommands, loadCommand, refreshSlashCommands, startSiteServer,
    onReady, onInteractionCreate, try_catch, not_awaited, outcome, returned,
    push, read_commands, act, kthrow, mbind, mret, K_bind, K_ret.

(** ** One turn at a time: what each turn of the source does *)

Example run_two_calls :
  run {| webhookURL := Some "https://hook"; sharedSiteWebhookURL := None |}
      (startup 0 "2024-01-01_00-00-00")
      [CallLog 10 "X" false "2024-01-01 00:00:00" None;
       CallLog 20 "Y" false "2024-01-01 00:00:00" None;
       TimerFires 510 0]
  = Some ({| currentLogFile := Some "logs/2024-01-01_00-00-00.log";
             botLogQueue := []; siteLogQueue := [];
             isProcessingBotLogQueue := true;
             isProcessingSiteLogQueue := false;
             siteWebhookQueue := []; now := 510; timers := [];
             requests := [Bot] |},
          [ConsoleLog "[2024-01-01 00:00:00] X";
           AppendFile "logs/2024-01-01_00-00-00.log"
             ("[2024-01-01 00:00:00] X" +:+ newline);
           ConsoleLog "[2024-01-01 00:00:00] Y";
           AppendFile "logs/2024-01-01_00-00-00.log"
             ("[2024-01-01 00:00:00] Y" +:+ newline);
           HttpPost Bot (Some "https://hook")
             ("[2024-01-01 00:00:00] X" +:+ newline +:+
              "[2024-01-01 00:00:00] Y")]).
Proof. vm_compute. reflexivity. Qed.

Lemma truthy_inv (v : option string) :
  truthy v = true -> exists a r, v = Some (String a r).
Proof. destruct v as [[|a r]|]; simpl; try discriminate; eauto. Qed.

(** [log] on a channel whose flag is set only appends to the queue. *)
Lemma step_log_busy cfg s c at_ms msg ts p :
  currentLogFile s = Some p ->
  truthy (url_of c cfg) = true ->
  flag_of c s = true ->
  (now s <= at_ms)%Z ->
  step cfg s (CallLog at_ms msg (site_related c) ts None)
  = Some (set_queue c (queue_of c s ++ [formatted ts msg]) (set_now at_ms s),
          local_lines p ts msg).
Proof.
  intros Hp Hu Hf Ht.
  destruct c, s, cfg; cbn in *; subst; unfold_turn; cbn; leb_true;
    rewrite Hu; reflexivity.
Qed.


(** [log] for a channel without a URL stops after the local lines. *)
Lemma step_log_disabled cfg s c at_ms msg ts p :
  currentLogFile s = Some p ->
  truthy (url_of c cfg) = false ->
  (now s <= at_ms)%Z ->
  step cfg s (CallLog at_ms msg (site_related c) ts None)
  = Some (set_now at_ms s, local_lines p ts msg).
Proof.
  intros Hp Hu Ht.
  destruct c, s, cfg; cbn in *; subst; unfold_turn; cbn; leb_true;
    rewrite Hu; reflexivity.
Qed.

(** The debounce wait ends on a non-empty queue: snapshot, clear, send. *)
Lemma step_debounce_send cfg s c i d at_ms :
  timers s !! i = Some {| due := d; callback := DebounceElapsed c |} ->
  queue_of c s <> [] ->
  (now s <= at_ms)%Z -> (d <= at_ms)%Z ->
  step cfg s (TimerFires at_ms i)
  = Some (set_requests (requests s ++ [c])
            (set_queue c []
               (set_now at_ms (set_timers (delete i (timers s)) s))),
          [HttpPost c (url_of c cfg) (join newline (queue_of c s))]).
Proof.
  intros Hi Hq Ht Hd.
  unfold step. rewrite Hi. cbn [due callback]. leb_true. cbn [andb].
  destruct c, s; cbn in *;
    match goal with
    | H : ?q <> [] |- _ => destruct q; [congruence|]
    end; reflexivity.
Qed.

(** The debounce wait ends on an empty queue: the flag is cleared. *)
Lemma step_debounce_empty cfg s c i d at_ms :
  timers s !! i = Some {| due := d; callback := DebounceElapsed c |} ->
  queue_of c s = [] ->
  (now s <= at_ms)%Z -> (d <= at_ms)%Z ->
  step cfg s (TimerFires at_ms i)
  = Some (set_flag c false
            (set_now at_ms (set_timers (delete i (timers s)) s)), []).
Proof.
  intros Hi Hq Ht Hd.
  unfold step. rewrite Hi. cbn [due callback]. leb_true. cbn [andb].
  destruct c, s; cbn in *; subst; reflexivity.
Qed.

(** The retry callback starts a cycle without looking at the flag. *)
Lemma step_retry cfg s c i d at_ms :
  timers s !! i = Some {| due := d; callback := RetryCallback c |} ->
  (now s <= at_ms)%Z -> (d <= at_ms)%Z ->
  step cfg s (TimerFires at_ms i)
  = Some (set_timers (delete i (timers s) ++ [debounce_timer at_ms c])
            (set_flag c true
               (set_now at_ms (set_timers (delete i (timers s)) s))), []).
Proof.
  intros Hi Ht Hd.
  unfold step. rewrite Hi. cbn [due callback]. leb_true. cbn [andb].
  destruct c, s; reflexivity.
Qed.

(** A timer never fires before it is due. *)
Lemma step_timer_early cfg s i t at_ms :
  timers s !! i = Some t ->
  (at_ms < due t)%Z ->
  step cfg s (TimerFires at_ms i) = None.
Proof.
  intros Hi Hd. unfold step. rewrite Hi.
  assert ((due t <=? at_ms)%Z = false) as -> by (apply Z.leb_gt; lia).
  rewrite andb_false_r. reflexivity.
Qed.

(** The request succeeded. *)
Lemma step_settle_resolved cfg s c i at_ms :
  requests s !! i = Some c ->
  (now s <= at_ms)%Z ->
  step cfg s (PostSettles at_ms i Resolved)
  = Some (set_flag c false
            (set_now at_ms (set_requests (delete i (requests s)) s)),
          [ConsoleLog (success_line c)]).
Proof.
  intros Hi Ht. unfold step. rewrite Hi. leb_true.
  destruct c, s; reflexivity.
Qed.

(** The request was answered with status 429. *)
Lemma step_settle_rate_limited cfg s c i e at_ms :
  requests s !! i = Some c ->
  rate_limited e = true ->
  (now s <= at_ms)%Z ->
  step cfg s (PostSettles at_ms i (Rejected e))
  = Some (set_flag c false
            (set_timers (timers s ++ [retry_timer at_ms c])
               (set_now at_ms (set_requests (delete i (requests s)) s))),
          [ConsoleLog "Rate limited. Retrying after 5 seconds..."]).
Proof.
  intros Hi He Ht. unfold step. rewrite Hi. leb_true.
  destruct c, s; unfold_turn; cbn; rewrite He; reflexivity.
Qed.

(** The request failed in any other way. *)
Lemma step_settle_failed cfg s c i e at_ms :
  requests s !! i = Some c ->
  rate_limited e = false ->
  (now s <= at_ms)%Z ->
  step cfg s (PostSettles at_ms i (Rejected e))
  = Some (set_flag c false
            (set_now at_ms (set_requests (delete i (requests s)) s)),
          [ConsoleError ("Error logging to webhook: " +:+ message e)]).
Proof.
  intros Hi He Ht. unfold step. rewrite Hi. leb_true.
  destruct c, s; unfold_turn; cbn; rewrite He; reflexivity.
Qed.

Lemma step_currentLogFile cfg s ev s' effs :
  step cfg s ev = Some (s', effs) -> currentLogFile s' = currentLogFile s.
Proof.
  intros H. destruct s, ev; step_inv H; reflexivity.
Qed.

(** ** Pending lists: the last element and removal by position *)

Section PendingLists.

Context {A : Type}.

Lemma lookup_snoc (l : list A) (x : A) : (l ++ [x]) !! length l = Some x.
Proof. apply list_lookup_middle. reflexivity. Qed.

Lemma delete_snoc (l : list A) (x : A) : delete (length l) (l ++ [x]) = l.
Proof. rewrite delete_middle. apply app_nil_r. Qed.

Lemma count_delete (f : A -> bool) (l : list A) (i : nat) (x : A) :
  l !! i = Some x ->
  length (List.filter f l)
  = ((if f x then 1 else 0) + length (List.filter f (delete i l)))%nat.
Proof.
  revert i. induction l as [|y l IH]; intros [|i] Hi; try discriminate.
  - injection Hi as ->. cbn. destruct (f x); reflexivity.
  - cbn in Hi. specialize (IH i Hi). cbn.
    destruct (f y), (f x); cbn in *; rewrite IH; reflexivity.
Qed.




End PendingLists.

(** ** Runs *)

Lemma run_app cfg s evs1 evs2 :
  run cfg s (evs1 ++ evs2)
  = match run cfg s evs1 with
    | Some (s1, e1) =>
        match run cfg s1 evs2 with
        | Some (s2, e2) => Some (s2, e1 ++ e2)
        | None => None
        end
    | None => None
    end.
Proof.
  revert s. induction evs1 as [|ev evs1 IH]; intros s; cbn.
  - destruct (run cfg s evs2) as [[s2 e2]|]; reflexivity.
  - destruct (step cfg s ev) as [[s1 e1]|]; [|reflexivity].
    rewrite IH. destruct (run cfg s1 evs1) as [[s2 e2]|]; [|reflexivity].
    destruct (run cfg s2 evs2) as [[s3 e3]|]; [|reflexivity].
    rewrite app_assoc. reflexivity.
Qed.

Lemma run_cons_inv cfg s ev evs s' effs :
  run cfg s (ev :: evs) = Some (s', effs) ->
  exists s1 e1 e2,
    step cfg s ev = Some (s1, e1) /\ run cfg s1 evs = Some (s', e2) /\
    effs = e1 ++ e2.
Proof.
  cbn. destruct (step cfg s ev) as [[s1 e1]|]; [|discriminate].
  destruct (run cfg s1 evs) as [[s2 e2]|] eqn:Hr; [|discriminate].
  intros [= <- <-]. exists s1, e1, e2. auto.
Qed.

Lemma run_currentLogFile cfg s evs s' effs :
  run cfg s evs = Some (s', effs) -> currentLogFile s' = currentLogFile s.
Proof.
  revert s effs. induction evs as [|ev evs IH]; intros s effs H.
  - cbn in H. congruence.
  - apply run_cons_inv in H as (s1 & e1 & e2 & Hs & Hr & _).
    rewrite (IH _ _ Hr). eapply step_currentLogFile; eassumption.
Qed.

Lemma posts_of_app c e1 e2 :
  posts_of c (e1 ++ e2) = posts_of c e1 ++ posts_of c e2.
Proof.
  induction e1 as [|e e1 IH]; [reflexivity|].
  destruct e; cbn; try assumption.
  case_bool_decide; cbn; congruence.
Qed.

Lemma rate_limited_true e :
  rate_limited e = true <-> err_response e = Some {| status := 429 |}.
Proof.
  unfold rate_limited. destruct (err_response e) as [[st]|]; cbn.
  - rewrite Z.eqb_eq. split; [intros ->; reflexivity | congruence].
  - split; discriminate.
Qed.

Lemma rate_limited_false e :
  rate_limited e = false <-> err_response e <> Some {| status := 429 |}.
Proof.
  rewrite <- rate_limited_true. destruct (rate_limited e); split;
    congruence.
Qed.

(** ** Failures of the remote sink *)

(** C7: a request of channel [c] that fails with anything but a 429
    response (no response at all, or another status) has its error written
    to the console; the batch, removed from the queue when it was sent,
    is not put back; no timer is armed and no request is sent, so nothing
    is retried; the cycle ends with the flag clear. *)
Theorem other_failure_logged_batch_dropped_no_retry
    cfg s c i (e : webhookError) at_ms :
  requests s !! i = Some c ->
  err_response e <> Some {| status := 429 |} ->
  (now s <= at_ms)%Z ->
  exists s',
    step cfg s (PostSettles at_ms i (Rejected e))
    = Some (s', [ConsoleError ("Error logging to webhook: " +:+ message e)])
    /\ queue_of c s' = queue_of c s
    /\ timers s' = timers s
    /\ requests s' = delete i (requests s)
    /\ flag_of c s' = false.
Proof.
  intros Hi He Ht. apply (proj2 (rate_limited_false e)) in He.
  eexists. split; [apply (step_settle_failed cfg s c); assumption|].
  destruct c, s; cbn; auto.
Qed.

Lemma other_failure_logged_batch_dropped_no_retry_witness :
  exists s',
    step bot_hook_only awaiting_bot_post (PostSettles 700 0 (Rejected server_error))
    = Some (s', [ConsoleError
                   "Error logging to webhook: Request failed with status code 500"])
    /\ queue_of Bot s' = ["[t] late"]
    /\ timers s' = []
    /\ requests s' = []
    /\ flag_of Bot s' = false.
Proof.
  apply (other_failure_logged_batch_dropped_no_retry
           bot_hook_only awaiting_bot_post Bot 0%nat server_error 700%Z).
  - reflexivity.
  - discriminate.
  - cbn. lia.
Defined.

(** C3, as the code has it: a request of channel [c] answered with status
    429 arms a timer due 5000 ms later whose callback restarts the flush
    cycle of the same channel; that timer cannot fire earlier, and when it
    fires the cycle starts again (flag set, debounce timer armed).  The
    flag of the channel is cleared in the turn that handles the 429
    response, before the retry fires. *)
Theorem rate_limited_retry_after_backoff cfg s c i (e : webhookError) at_ms :
  requests s !! i = Some c ->
  err_response e = Some {| status := 429 |} ->
  (now s <= at_ms)%Z ->
  exists s',
    step cfg s (PostSettles at_ms i (Rejected e))
    = Some (s', [ConsoleLog "Rate limited. Retrying after 5 seconds..."])
    /\ timers s' = timers s ++ [{| due := (at_ms + 5000)%Z;
                                   callback := RetryCallback c |}]
    /\ flag_of c s' = false
    /\ queue_of c s' = queue_of c s
    /\ (forall t, (t < at_ms + 5000)%Z ->
          step cfg s' (TimerFires t (length (timers s))) = None)
    /\ (forall t, (at_ms + 5000 <= t)%Z ->
          exists s'',
            step cfg s' (TimerFires t (length (timers s))) = Some (s'', [])
            /\ flag_of c s'' = true
            /\ timers s'' = timers s ++ [{| due := (t + 500)%Z;
                                            callback := DebounceElapsed c |}]).
Proof.
  intros Hi He Ht. apply (proj2 (rate_limited_true e)) in He.
  eexists. split; [apply (step_settle_rate_limited cfg s c); assumption|].
  set (s' := set_flag c false _).
  assert (Htm : timers s' = timers s ++ [retry_timer at_ms c])
    by (destruct c, s; reflexivity).
  assert (Hnow : now s' = at_ms) by (destruct c, s; reflexivity).
  assert (Hlk : timers s' !! length (timers s) = Some (retry_timer at_ms c)).
  { rewrite Htm. rewrite lookup_app_r by lia.
    replace (length (timers s) - length (timers s))%nat with 0%nat by lia.
    reflexivity. }
  repeat split.
  - exact Htm.
  - destruct c, s; reflexivity.
  - destruct c, s; reflexivity.
  - intros t Hlt. eapply step_timer_early; [exact Hlk|]. cbn. lia.
  - intros t Hle. eexists. split.
    + eapply step_retry; [exact Hlk| |lia]. rewrite Hnow. lia.
    + assert (Hdel : delete (length (timers s)) (timers s') = timers s).
      { rewrite Htm. clear.
        induction (timers s) as [|x l IH]; cbn; [reflexivity|].
        f_equal. exact IH. }
      rewrite Hdel. destruct c, s'; cbn; auto.
Qed.

Lemma rate_limited_retry_after_backoff_witness :
  exists s',
    step bot_hook_only awaiting_bot_post
      (PostSettles 700 0 (Rejected too_many_requests))
    = Some (s', [ConsoleLog "Rate limited. Retrying after 5 seconds..."])
    /\ timers s' = [{| due := 5700; callback := RetryCallback Bot |}]
    /\ flag_of Bot s' = false
    /\ queue_of Bot s' = ["[t] late"]
    /\ (forall t, (t < 700 + 5000)%Z ->
          step bot_hook_only s' (TimerFires t 0) = None)
    /\ (forall t, (700 + 5000 <= t)%Z ->
          exists s'',
            step bot_hook_only s' (TimerFires t 0) = Some (s'', [])
            /\ flag_of Bot s'' = true
            /\ timers s'' = [{| due := (t + 500)%Z;
                                callback := DebounceElapsed Bot |}]).
Proof.
  apply (rate_limited_retry_after_backoff
           bot_hook_only awaiting_bot_post Bot 0%nat too_many_requests 700%Z).
  - reflexivity.
  - reflexivity.
  - cbn. lia.
Defined.

(** C3, as the claim states it, fails: after a 429 response the retry timer
    is still armed (it has not fired, let alone finished) and the flag of
    the channel is already clear. *)
Lemma flag_clear_while_retry_is_armed :
  exists s effs,
    run bot_hook_only (startup 0 "2024-01-01_00-00-00")
      [CallLog 0 "A" false "t" None;
       TimerFires 500 0;
       PostSettles 600 0 (Rejected too_many_requests)]
    = Some (s, effs)
    /\ timers s = [{| due := 5600; callback := RetryCallback Bot |}]
    /\ requests s = []
    /\ isProcessingBotLogQueue s = false.
Proof. eexists _, _. vm_compute. auto. Qed.

(** ** Local logging *)

Lemma step_log_effects cfg s at_ms msg site ts failure p :
  currentLogFile s = Some p ->
  (now s <= at_ms)%Z ->
  exists s',
    step cfg s (CallLog at_ms msg site ts failure)
    = Some (s', ConsoleLog (formatted ts msg) ::
                match failure with
                | None => [AppendFile p (formatted ts msg +:+ newline)]
                | Some _ => []
                end).
Proof.
  intros Hp Ht. unfold step. leb_true.
  destruct s, cfg; cbn in *; subst; unfold_turn; cbn.
  destruct failure, site; cbn;
    repeat match goal with
    | |- context [truthy ?u] => destruct (truthy u); cbn
    | |- context [negb ?b] => destruct b; cbn
    end; eauto.
Qed.

Lemma startup_currentLogFile t0 ts0 :
  currentLogFile (startup t0 ts0) = Some ("logs/" +:+ ts0 +:+ ".log").
Proof. reflexivity. Qed.

(** C8: in every state the program reaches after start-up, whatever the
    two URLs are and whichever channel the call is for, [log] writes the
    line "[timestamp] message" to the console and, in the same turn,
    appends it with a newline to the log file created at start-up; when
    the file system refuses the append only the console line is written. *)
Theorem log_writes_console_and_run_file
    cfg t0 ts0 evs s effs at_ms msg site ts failure :
  run cfg (startup t0 ts0) evs = Some (s, effs) ->
  (now s <= at_ms)%Z ->
  exists s',
    step cfg s (CallLog at_ms msg site ts failure)
    = Some (s', ConsoleLog ("[" +:+ ts +:+ "] " +:+ msg) ::
                match failure with
                | None => [AppendFile ("logs/" +:+ ts0 +:+ ".log")
                             (("[" +:+ ts +:+ "] " +:+ msg) +:+ newline)]
                | Some _ => []
                end).
Proof.
  intros Hr Ht. apply run_currentLogFile in Hr.
  rewrite startup_currentLogFile in Hr.
  exact (step_log_effects cfg s at_ms msg site ts failure _ Hr Ht).
Qed.

Lemma log_writes_console_and_run_file_witness :
  exists s',
    step {| webhookURL := None; sharedSiteWebhookURL := None |}
      (startup 0 "2024-01-01_00-00-00")
      (CallLog 5 "ready" true "2024-01-01 00:00:00" None)
    = Some (s', [ConsoleLog "[2024-01-01 00:00:00] ready";
                 AppendFile "logs/2024-01-01_00-00-00.log"
                   ("[2024-01-01 00:00:00] ready" +:+ newline)]).
Proof.
  apply (log_writes_console_and_run_file
           {| webhookURL := None; sharedSiteWebhookURL := None |}
           0%Z "2024-01-01_00-00-00" [] (startup 0 "2024-01-01_00-00-00") []
           5%Z "ready" true "2024-01-01 00:00:00" None).
  - reflexivity.
  - apply Z.leb_le. reflexivity.
Defined.

Lemma log_completion cfg s msg site ts failure p :
  currentLogFile s = Some p ->
  (log cfg msg site ts failure s).1.1 = completion_of failure.
Proof.
  intros Hp. destruct s, cfg; cbn in *; subst; unfold_turn; cbn.
  destruct failure, site; cbn;
    repeat match goal with
    | |- context [truthy ?u] => destruct (truthy u); cbn
    | |- context [negb ?b] => destruct b; cbn
    end; reflexivity.
Qed.

Lemma log_throws cfg s msg site ts err p :
  currentLogFile s = Some p ->
  log cfg msg site ts (Some err) s
  = (Throw err, s, [ConsoleLog (formatted ts msg)]).
Proof.
  intros Hp. destruct s; cbn in *; subst. reflexivity.
Qed.

Lemma resume_afterPost_normal c r s :
  (resume_afterPost c r s).1.1 = Normal tt.
Proof.
  destruct c, r as [|e]; unfold_turn; cbn; try reflexivity;
    destruct (rate_limited e); reflexivity.
Qed.

Lemma run_task_normal cfg t s :
  (run_task cfg t s).1.1 = Normal tt.
Proof.
  destruct t as [[]|[]]; unfold_turn; cbn; try reflexivity.
  - destruct (botLogQueue s); reflexivity.
  - destruct (siteWebhookQueue s); reflexivity.
Qed.

(** C6: in every state the program reaches after start-up (whatever
    requests failed on the way, with a 429 or otherwise), the promise
    [log] returns to its caller is rejected exactly when the append to the
    log file throws, with that error, leaving the console line written and
    the state as it was; otherwise it is fulfilled.  The turns that send a
    batch or handle the outcome of a request, failure included, complete
    normally: they throw nothing, and no caller of [log] waits for them. *)
Theorem only_local_write_failure_reaches_caller
    cfg t0 ts0 evs s effs at_ms msg site ts failure :
  run cfg (startup t0 ts0) evs = Some (s, effs) ->
  (log cfg msg site ts failure (set_now at_ms s)).1.1 = completion_of failure
  /\ (forall err, failure = Some err ->
        log cfg msg site ts failure (set_now at_ms s)
        = (Throw err, set_now at_ms s, [ConsoleLog (formatted ts msg)]))
  /\ (forall c r s0, (resume_afterPost c r s0).1.1 = Normal tt)
  /\ (forall t s0, (run_task cfg t s0).1.1 = Normal tt).
Proof.
  intros Hr. apply run_currentLogFile in Hr.
  rewrite startup_currentLogFile in Hr.
  assert (Hp : currentLogFile (set_now at_ms s)
               = Some ("logs/" +:+ ts0 +:+ ".log")) by exact Hr.
  repeat split.
  - eapply log_completion; exact Hp.
  - intros err ->. eapply log_throws; exact Hp.
  - apply resume_afterPost_normal.
  - apply run_task_normal.
Qed.

Lemma only_local_write_failure_reaches_caller_witness :
  exists s effs,
    run bot_hook_only (startup 0 "2024-01-01_00-00-00")
      [CallLog 0 "A" false "t" None; TimerFires 500 0;
       PostSettles 600 0 (Rejected network_error)] = Some (s, effs)
    /\ (log bot_hook_only "B" false "t" None (set_now 700 s)).1.1 = Normal tt
    /\ (log bot_hook_only "B" false "t" (Some "ENOSPC") (set_now 700 s)).1.1
       = Throw "ENOSPC".
Proof.
  eexists _, _. split; [vm_compute; reflexivity|]. split.
  - refine (proj1 (only_local_write_failure_reaches_caller
             bot_hook_only 0%Z "2024-01-01_00-00-00"
             [CallLog 0 "A" false "t" None; TimerFires 500 0;
              PostSettles 600 0 (Rejected network_error)]
             _ _ 700%Z "B" false "t" None _)).
    vm_compute. reflexivity.
  - refine (proj1 (only_local_write_failure_reaches_caller
             bot_hook_only 0%Z "2024-01-01_00-00-00"
             [CallLog 0 "A" false "t" None; TimerFires 500 0;
              PostSettles 600 0 (Rejected network_error)]
             _ _ 700%Z "B" false "t" (Some "ENOSPC") _)).
    vm_compute. reflexivity.
Defined.

(** ** Isolation of the two channels *)

(** C10: every turn runs the code of one channel (the channel a call of
    [log] is tagged for, or the channel of the cycle a timer or a request
    belongs to).  Such a turn leaves the queue and the flag of the other
    channel as they were; every request it sends is sent by its own cycle
    to its own URL; it does the same whatever the queue and the flag of the
    other channel hold and whatever the URL of the other channel is. *)
Theorem channels_are_isolated cfg s ev s' effs c :
  owner s ev = Some c ->
  step cfg s ev = Some (s', effs) ->
  queue_of (other c) s' = queue_of (other c) s
  /\ flag_of (other c) s' = flag_of (other c) s
  /\ (forall c' url content,
        HttpPost c' url content ∈ effs -> c' = c /\ url = url_of c cfg)
  /\ (forall q b,
        step cfg (set_flag (other c) b (set_queue (other c) q s)) ev
        = Some (set_flag (other c) b (set_queue (other c) q s'), effs))
  /\ (forall cfg', url_of c cfg' = url_of c cfg ->
        step cfg' s ev = Some (s', effs)).
Proof.
  intros Ho H.
  destruct s, cfg, ev; cbn in Ho; step_inv H; cbn in *; simplify_eq;
    cbn; repeat split.
  all: try (intros q b; recompute).
  all: try (intros [u1 u2] Hu; recompute).
  all: match goal with Hin : _ ∈ _ |- _ => solve_mem Hin end.
Qed.

Lemma channels_are_isolated_witness :
  exists s' effs,
    step both_hooks both_channels_busy (TimerFires 900 1) = Some (s', effs)
    /\ effs = [HttpPost Bot (Some "https://hook/bot") "[t] b"]
    /\ queue_of (other Bot) s' = queue_of (other Bot) both_channels_busy
    /\ flag_of (other Bot) s' = flag_of (other Bot) both_channels_busy
    /\ (forall c' url content,
          HttpPost c' url content ∈ effs ->
          c' = Bot /\ url = url_of Bot both_hooks)
    /\ (forall q b,
          step both_hooks
            (set_flag (other Bot) b (set_queue (other Bot) q both_channels_busy))
            (TimerFires 900 1)
          = Some (set_flag (other Bot) b (set_queue (other Bot) q s'), effs))
    /\ (forall cfg', url_of Bot cfg' = url_of Bot both_hooks ->
          step cfg' both_channels_busy (TimerFires 900 1) = Some (s', effs)).
Proof.
  eexists _, _. split; [vm_compute; reflexivity|]. split; [reflexivity|].
  apply (channels_are_isolated both_hooks both_channels_busy
           (TimerFires 900 1)).
  - reflexivity.
  - vm_compute. reflexivity.
Defined.

(** ** A channel without a URL *)

Lemma quiet_startup c t0 ts0 : quiet c (startup t0 ts0).
Proof.
  destruct c; repeat split; cbn; constructor.
Qed.

Lemma step_quiet cfg c s ev s' effs :
  truthy (url_of c cfg) = false ->
  quiet c s ->
  step cfg s ev = Some (s', effs) ->
  quiet c s' /\ posts_of c effs = [].
Proof.
  intros Hu (Hq & Hf & Ht & Hr) H. unfold quiet.
  destruct ev as [at_ms msg site ts failure | at_ms i | at_ms i r].
  - destruct c, s, cfg, site; cbn in *; subst;
      unfold_turn_in H; cbn in H; rewrite ?Hu in H; step_inv H; cbn in *;
      try congruence; split_and!; cbn;
      try reflexivity; try assumption;
      try (apply Forall_app_2; [assumption|]; repeat constructor;
           cbn; congruence).
  - unfold step in H.
    destruct (timers s !! i) as [t|] eqn:Hi; [|discriminate].
    pose proof (Forall_lookup_1 _ _ _ _ Ht Hi) as [Hd Hy].
    pose proof (Forall_delete _ _ i Ht) as Ht'.
    destruct t as [d cb]. cbn in Hd, Hy.
    destruct c, s, cfg, cb as [[]|[]]; cbn in *; subst; try congruence;
      step_inv H; cbn in *; split_and!; cbn;
      try reflexivity; try assumption;
      try (apply Forall_app_2; [assumption|]; repeat constructor;
           cbn; congruence).
  - unfold step in H.
    destruct (requests s !! i) as [c'|] eqn:Hi; [|discriminate].
    pose proof (Forall_lookup_1 _ _ _ _ Hr Hi) as Hne.
    pose proof (Forall_delete _ _ i Hr) as Hr'.
    destruct c, c', s, cfg; cbn in *; subst; try congruence;
      step_inv H; cbn in *; split_and!; cbn;
      try reflexivity; try assumption;
      try (apply Forall_app_2; [assumption|]; repeat constructor;
           cbn; congruence).
Qed.

Lemma run_quiet cfg c s evs s' effs :
  truthy (url_of c cfg) = false ->
  quiet c s ->
  run cfg s evs = Some (s', effs) ->
  quiet c s' /\ posts_of c effs = [].
Proof.
  intros Hu. revert s effs.
  induction evs as [|ev evs IH]; intros s effs Hq H.
  - cbn in H. injection H as <- <-. auto.
  - apply run_cons_inv in H as (s1 & e1 & e2 & Hs & Hr & ->).
    destruct (step_quiet _ _ _ _ _ _ Hu Hq Hs) as [Hq1 Hp1].
    destruct (IH _ _ Hq1 Hr) as [Hq2 Hp2].
    split; [assumption|]. rewrite posts_of_app, Hp1, Hp2. reflexivity.
Qed.

Lemma posts_of_nil_not_elem c effs url content :
  posts_of c effs = [] -> HttpPost c url content ∉ effs.
Proof.
  induction effs as [|e effs IH]; intros Hp Hin.
  - apply elem_of_nil in Hin. exact Hin.
  - apply elem_of_cons in Hin as [Heq|Hin].
    + subst e. cbn in Hp. rewrite bool_decide_eq_true_2 in Hp by reflexivity.
      discriminate.
    + apply IH; [|assumption].
      destruct e; cbn in Hp; try assumption.
      case_bool_decide; [discriminate|assumption].
Qed.

(** C5: when the URL of channel [c] is unset (or empty), no run of the
    program from start-up, however many calls of [log] it contains, sends
    a request for that channel; and in every state reached a call of [log]
    for that channel writes its two local lines, changes nothing else and
    completes normally. *)
Theorem no_request_without_url cfg c t0 ts0 evs s effs :
  truthy (url_of c cfg) = false ->
  run cfg (startup t0 ts0) evs = Some (s, effs) ->
  posts_of c effs = []
  /\ (forall url content, HttpPost c url content ∉ effs)
  /\ (forall at_ms msg ts, (now s <= at_ms)%Z ->
        step cfg s (CallLog at_ms msg (site_related c) ts None)
        = Some (set_now at_ms s,
                [ConsoleLog (formatted ts msg);
                 AppendFile ("logs/" +:+ ts0 +:+ ".log")
                   (formatted ts msg +:+ newline)])
        /\ (log cfg msg (site_related c) ts None (set_now at_ms s)).1.1
           = Normal tt).
Proof.
  intros Hu Hr.
  destruct (run_quiet _ _ _ _ _ _ Hu (quiet_startup c t0 ts0) Hr) as [_ Hp].
  apply run_currentLogFile in Hr. rewrite startup_currentLogFile in Hr.
  split; [exact Hp|]. split.
  - intros url content. apply posts_of_nil_not_elem. exact Hp.
  - intros at_ms msg ts Ht. split.
    + apply step_log_disabled; assumption.
    + apply (log_completion cfg (set_now at_ms s) msg (site_related c) ts
               None ("logs/" +:+ ts0 +:+ ".log")). exact Hr.
Qed.

Lemma no_request_without_url_witness :
  exists s effs,
    run bot_hook_only (startup 0 "2024-01-01_00-00-00")
      [CallLog 0 "a" true "t" None; CallLog 1 "b" true "t" None;
       CallLog 2 "c" false "t" None; TimerFires 600 0] = Some (s, effs)
    /\ posts_of Site effs = []
    /\ (forall url content, HttpPost Site url content ∉ effs).
Proof.
  pose proof (fun s effs =>
                no_request_without_url bot_hook_only Site 0%Z
                  "2024-01-01_00-00-00"
                  [CallLog 0 "a" true "t" None; CallLog 1 "b" true "t" None;
                   CallLog 2 "c" false "t" None; TimerFires 600 0]
                  s effs eq_refl) as H.
  eexists _, _. split; [vm_compute; reflexivity|].
  edestruct H as (H1 & H2 & _); [vm_compute; reflexivity|].
  split; [exact H1 | exact H2].
Defined.

(** ** Batches *)

Lemma entries_of_cons c ev evs :
  entries_of c (ev :: evs) = entries_of c [ev] ++ entries_of c evs.
Proof.
  destruct ev as [a m site ts [err|] | |]; cbn; try reflexivity.
  case_bool_decide; reflexivity.
Qed.

(** A turn either leaves the requests of [c] alone and appends to its queue
    the line of the call, if any, or sends the whole queue as one batch and
    empties it. *)
Lemma step_batches cfg c s ev s' effs p :
  currentLogFile s = Some p ->
  truthy (url_of c cfg) = true ->
  step cfg s ev = Some (s', effs) ->
  (posts_of c effs = [] /\ queue_of c s' = queue_of c s ++ entries_of c [ev])
  \/ (posts_of c effs = [(url_of c cfg, join newline (queue_of c s))]
      /\ queue_of c s <> [] /\ queue_of c s' = []
      /\ entries_of c [ev] = []).
Proof.
  intros Hp Hu H.
  destruct ev as [at_ms msg site ts failure | at_ms i | at_ms i r].
  - destruct c, s, cfg, site; cbn in *; subst;
      unfold_turn_in H; cbn in H; rewrite ?Hu in H; step_inv H; cbn;
      left; rewrite ?app_nil_r; split; reflexivity.
  - destruct c, s as [? bq ? ? ? sq ? ? ?], cfg, bq, sq; cbn in *; subst;
      step_inv H; cbn;
      first [ left; rewrite ?app_nil_r; split; reflexivity
            | right; split_and!; (reflexivity || discriminate) ].
  - destruct c, s, cfg; cbn in *; subst; step_inv H; cbn;
      left; rewrite ?app_nil_r; split; reflexivity.
Qed.

Lemma run_batches cfg c evs : forall s s' effs p,
  currentLogFile s = Some p ->
  truthy (url_of c cfg) = true ->
  run cfg s evs = Some (s', effs) ->
  exists batches : list (list string),
    posts_of c effs = map (fun b => (url_of c cfg, join newline b)) batches
    /\ Forall (fun b => b <> []) batches
    /\ queue_of c s ++ entries_of c evs = concat batches ++ queue_of c s'.
Proof.
  induction evs as [|ev evs IH]; intros s s' effs p Hp Hu H.
  - cbn in H. injection H as <- <-. exists []. cbn.
    rewrite app_nil_r. auto.
  - apply run_cons_inv in H as (s1 & e1 & e2 & Hs & Hr & ->).
    assert (Hp1 : currentLogFile s1 = Some p)
      by (rewrite (step_currentLogFile _ _ _ _ _ Hs); exact Hp).
    destruct (IH _ _ _ _ Hp1 Hu Hr) as (bs & Hposts & Hne & Hq).
    rewrite posts_of_app, entries_of_cons.
    destruct (step_batches _ _ _ _ _ _ _ Hp Hu Hs)
      as [[Hp0 Hq1] | (Hp0 & Hnn & Hq1 & He)].
    + exists bs. rewrite Hp0. split_and!.
      * exact Hposts.
      * assumption.
      * rewrite app_assoc, <- Hq1. exact Hq.
    + exists (queue_of c s :: bs). rewrite Hp0, He. split_and!.
      * cbn. f_equal. exact Hposts.
      * constructor; assumption.
      * rewrite Hq1 in Hq. cbn in Hq. cbn. rewrite Hq, app_assoc.
        reflexivity.
Qed.

(** C9: in a run from start-up on a channel with a URL, the payloads sent
    for the channel are the newline-joins of non-empty batches, and these
    batches, one after the other, followed by what is still in the queue,
    are exactly the lines the calls of [log] appended, in call order.  So
    each appended line sits in one batch at most (or is still pending):
    a later flush, a retry after a failure included, never sends again a
    line that an earlier request carried. *)
Theorem each_entry_in_at_most_one_payload cfg c t0 ts0 evs s effs :
  truthy (url_of c cfg) = true ->
  run cfg (startup t0 ts0) evs = Some (s, effs) ->
  exists batches : list (list string),
    posts_of c effs = map (fun b => (url_of c cfg, join newline b)) batches
    /\ Forall (fun b => b <> []) batches
    /\ entries_of c evs = concat batches ++ queue_of c s.
Proof.
  intros Hu Hr.
  destruct (run_batches cfg c evs _ _ _ _ (startup_currentLogFile t0 ts0)
              Hu Hr) as (bs & H1 & H2 & H3).
  exists bs. split_and!; try assumption.
  destruct c; exact H3.
Qed.

Lemma each_entry_in_at_most_one_payload_witness :
  exists s effs,
    run bot_hook_only fresh retried_run = Some (s, effs)
    /\ posts_of Bot effs
       = [(Some "https://hook/bot", "[t] A");
          (Some "https://hook/bot", "[t] B")]
    /\ exists batches : list (list string),
         posts_of Bot effs
         = map (fun b => (url_of Bot bot_hook_only, join newline b)) batches
         /\ Forall (fun b => b <> []) batches
         /\ entries_of Bot retried_run = concat batches ++ queue_of Bot s.
Proof.
  eexists _, _.
  split; [vm_compute; reflexivity|].
  split; [vm_compute; reflexivity|].
  apply (each_entry_in_at_most_one_payload bot_hook_only Bot 0%Z
           "2024-01-01_00-00-00" retried_run).
  - reflexivity.
  - vm_compute. reflexivity.
Defined.

(** ** A debounce window *)

(** Calls of [log] while the flag is set only extend the queue. *)
Lemma run_calls_busy cfg c p calls : forall s hi,
  currentLogFile s = Some p ->
  truthy (url_of c cfg) = true ->
  flag_of c s = true ->
  ordered (now s) calls hi ->
  exists s' effs,
    run cfg s (map (call_event c) calls) = Some (s', effs)
    /\ posts_of c effs = []
    /\ currentLogFile s' = Some p
    /\ flag_of c s' = true
    /\ queue_of c s' = queue_of c s ++ map call_line calls
    /\ timers s' = timers s
    /\ requests s' = requests s
    /\ (now s' <= hi)%Z.
Proof.
  induction calls as [|k calls IH]; intros s hi Hp Hu Hf Ho.
  - exists s, []. cbn in *. rewrite app_nil_r. split_and!; auto.
  - destruct Ho as [Hk Ho].
    pose proof (step_log_busy cfg s c (call_at k) (call_message k)
                  (call_timestamp k) p Hp Hu Hf Hk) as Hs.
    set (s1 := set_queue c _ _) in Hs.
    assert (H1 : currentLogFile s1 = Some p /\ flag_of c s1 = true
                 /\ now s1 = call_at k /\ timers s1 = timers s
                 /\ requests s1 = requests s
                 /\ queue_of c s1 = queue_of c s ++ [call_line k]).
    { subst s1. destruct c, s; cbn in *; split_and!; auto. }
    destruct H1 as (Hp1 & Hf1 & Hn1 & Ht1 & Hr1 & Hq1).
    assert (Ho1 : ordered (now s1) calls hi) by (rewrite Hn1; exact Ho).
    destruct (IH s1 hi Hp1 Hu Hf1 Ho1) as
      (s' & effs & Hrun & Hposts & Hp' & Hf' & Hq' & Ht' & Hr' & Hn').
    exists s', (local_lines p (call_timestamp k) (call_message k) ++ effs).
    split_and!; try congruence.
    + cbn [map run]. unfold call_event at 1. rewrite Hs, Hrun. reflexivity.
    + rewrite posts_of_app, Hposts. reflexivity.
    + rewrite Hq', Hq1. cbn [map]. rewrite <- app_assoc. reflexivity.
Qed.








Example one_window_one_request_run :
  exists s2 effs,
    run both_hooks fresh
      [call_event Bot call_X; CallLog 15 "S" true "t" None;
       call_event Bot call_Y; TimerFires 510 0; TimerFires 515 0]
    = Some (s2, effs)
    /\ posts_of Bot effs
       = [(Some "https://hook/bot", "[t] X" +:+ newline +:+ "[t] Y")].
Proof. eexists _, _. split; vm_compute; reflexivity. Qed.

(** Why the channel must be at rest when the window opens: after a 429
    and a call during the backoff, the debounce timer armed by the retry
    (due at 6100) is still waiting when the flag is cleared at 5950.  The
    window opened by "C" at 6000 is then flushed twice: by that earlier
    timer at 6100 ("C" and "D") and by its own timer at 6500 ("E"). *)
Example window_with_an_earlier_timer_is_sent_twice :
  exists s1 e1 s2 e2,
    run bot_hook_only fresh
      [CallLog 0 "A" false "t" None; TimerFires 500 0;
       PostSettles 600 0 (Rejected too_many_requests);
       CallLog 5400 "B" false "t" None; TimerFires 5600 0;
       TimerFires 5900 0; PostSettles 5950 0 Resolved] = Some (s1, e1)
    /\ isProcessingBotLogQueue s1 = false
    /\ botLogQueue s1 = []
    /\ timers s1 = [debounce_timer 5600 Bot]
    /\ run bot_hook_only s1
         [CallLog 6000 "C" false "t" None; CallLog 6050 "D" false "t" None;
          TimerFires 6100 0; CallLog 6200 "E" false "t" None;
          TimerFires 6500 0] = Some (s2, e2)
    /\ posts_of Bot e2
       = [(Some "https://hook/bot", "[t] C" +:+ newline +:+ "[t] D");
          (Some "https://hook/bot", "[t] E")].
Proof.
  eexists _, _, _, _.
  split; [vm_compute; reflexivity|].
  split; [reflexivity|]. split; [reflexivity|]. split; [reflexivity|].
  split; vm_compute; reflexivity.
Qed.


(** ** A batch answered with 429 *)

(** C4: a flush cycle of channel [c] sends the pending lines as one batch
    and empties the queue; lines logged while the request is awaited are
    queued; when the request is answered with 429 the batch is not put
    back, so the queue then holds exactly the lines logged after the
    snapshot; the retry fires after the backoff and its flush sends those
    lines and the ones logged during its own debounce wait, and nothing
    when there are none.  The batch of the failed request is sent once and
    never again. *)
Theorem rate_limited_batch_is_not_resent
    cfg c s p i d t1 calls1 t2 (e : webhookError) t3 calls2 t4 :
  currentLogFile s = Some p ->
  truthy (url_of c cfg) = true ->
  flag_of c s = true ->
  timers s !! i = Some {| due := d; callback := DebounceElapsed c |} ->
  queue_of c s <> [] ->
  (now s <= t1)%Z -> (d <= t1)%Z ->
  ordered t1 calls1 t2 ->
  err_response e = Some {| status := 429 |} ->
  (t2 + 5000 <= t3)%Z ->
  ordered t3 calls2 t4 ->
  (t3 + 500 <= t4)%Z ->
  exists s3 e3 s6 e6,
    run cfg s (TimerFires t1 i :: map (call_event c) calls1
               ++ [PostSettles t2 (length (requests s)) (Rejected e)])
    = Some (s3, e3)
    /\ posts_of c e3 = [(url_of c cfg, join newline (queue_of c s))]
    /\ queue_of c s3 = map call_line calls1
    /\ flag_of c s3 = false
    /\ timers s3 = delete i (timers s) ++ [{| due := (t2 + 5000)%Z;
                                             callback := RetryCallback c |}]
    /\ run cfg s3 (TimerFires t3 (length (delete i (timers s)))
                   :: map (call_event c) calls2
                   ++ [TimerFires t4 (length (delete i (timers s)))])
       = Some (s6, e6)
    /\ posts_of c e6
       = match map call_line (calls1 ++ calls2) with
         | [] => []
         | later => [(url_of c cfg, join newline later)]
         end
    /\ queue_of c s6 = [].
Proof.
  intros Hp Hu Hf Hi Hq Hn1 Hd1 Ho1 He Hb Ho2 Hd2.
  apply (proj2 (rate_limited_true e)) in He.
  (* the debounce wait ends: snapshot, clear, send *)
  pose proof (step_debounce_send cfg s c i d t1 Hi Hq Hn1 Hd1) as Hs1.
  set (s1 := set_requests _ _) in Hs1.
  assert (H1 : currentLogFile s1 = Some p /\ flag_of c s1 = true
               /\ now s1 = t1 /\ timers s1 = delete i (timers s)
               /\ requests s1 = requests s ++ [c] /\ queue_of c s1 = []).
  { subst s1. destruct c, s; cbn in *; split_and!; auto. }
  destruct H1 as (Hp1 & Hf1 & Hnow1 & Ht1 & Hr1 & Hq1).
  (* calls while the request is awaited *)
  assert (Ho1' : ordered (now s1) calls1 t2) by (rewrite Hnow1; exact Ho1).
  destruct (run_calls_busy cfg c p calls1 s1 t2 Hp1 Hu Hf1 Ho1') as
    (s2 & e2 & Hrun2 & Hposts2 & Hp2 & Hf2 & Hq2 & Ht2 & Hr2 & Hnow2).
  rewrite Hq1 in Hq2. cbn [app] in Hq2.
  (* the 429 response *)
  assert (Hlk2 : requests s2 !! length (requests s) = Some c)
    by (rewrite Hr2, Hr1; apply lookup_snoc).
  pose proof (step_settle_rate_limited cfg s2 c _ e t2 Hlk2 He Hnow2) as Hs3.
  set (s3 := set_flag c false _) in Hs3.
  assert (H3 : currentLogFile s3 = Some p /\ flag_of c s3 = false
               /\ now s3 = t2
               /\ timers s3 = delete i (timers s) ++ [retry_timer t2 c]
               /\ requests s3 = requests s
               /\ queue_of c s3 = map call_line calls1).
  { assert (Hdel : delete (length (requests s)) (requests s2) = requests s)
      by (rewrite Hr2, Hr1; apply delete_snoc).
    subst s3. destruct c, s2; cbn in *; subst; split_and!; auto. }
  destruct H3 as (Hp3 & Hf3 & Hnow3 & Ht3 & Hr3 & Hq3).
  (* the retry callback *)
  assert (Hlk3 : timers s3 !! length (delete i (timers s))
                 = Some {| due := t2 + 5000; callback := RetryCallback c |})
    by (rewrite Ht3; apply lookup_snoc).
  assert (Hnow3' : (now s3 <= t3)%Z) by lia.
  pose proof (step_retry cfg s3 c _ _ t3 Hlk3 Hnow3' Hb) as Hs4.
  set (s4 := set_timers _ _) in Hs4.
  assert (H4 : currentLogFile s4 = Some p /\ flag_of c s4 = true
               /\ now s4 = t3
               /\ timers s4 = delete i (timers s) ++ [debounce_timer t3 c]
               /\ queue_of c s4 = map call_line calls1).
  { assert (Hdel : delete (length (delete i (timers s))) (timers s3)
                   = delete i (timers s))
      by (rewrite Ht3; apply delete_snoc).
    subst s4. rewrite Hdel. destruct c, s3; cbn in *; subst;
      split_and!; auto. }
  destruct H4 as (Hp4 & Hf4 & Hnow4 & Ht4 & Hq4).
  (* calls during the debounce wait of the retry *)
  assert (Ho2' : ordered (now s4) calls2 t4) by (rewrite Hnow4; exact Ho2).
  destruct (run_calls_busy cfg c p calls2 s4 t4 Hp4 Hu Hf4 Ho2') as
    (s5 & e5 & Hrun5 & Hposts5 & Hp5 & Hf5 & Hq5 & Ht5 & Hr5 & Hnow5).
  assert (Hq5' : queue_of c s5 = map call_line (calls1 ++ calls2))
    by (rewrite Hq5, Hq4, map_app; reflexivity).
  assert (Hlk5 : timers s5 !! length (delete i (timers s))
                 = Some {| due := t3 + 500; callback := DebounceElapsed c |})
    by (rewrite Ht5, Ht4; apply lookup_snoc).
  assert (Hfirst :
    run cfg s (TimerFires t1 i :: map (call_event c) calls1
               ++ [PostSettles t2 (length (requests s)) (Rejected e)])
    = Some (s3, [HttpPost c (url_of c cfg) (join newline (queue_of c s))]
                ++ e2 ++
                [ConsoleLog "Rate limited. Retrying after 5 seconds..."]
                ++ [])).
  { cbn [run]. rewrite Hs1, run_app, Hrun2. cbn [run]. rewrite Hs3.
    reflexivity. }
  assert (Hposts3 :
    posts_of c ([HttpPost c (url_of c cfg) (join newline (queue_of c s))]
                ++ e2 ++
                [ConsoleLog "Rate limited. Retrying after 5 seconds..."]
                ++ [])
    = [(url_of c cfg, join newline (queue_of c s))]).
  { rewrite !posts_of_app, Hposts2. cbn.
    rewrite bool_decide_eq_true_2 by reflexivity. reflexivity. }
  destruct (decide (queue_of c s5 = [])) as [Hempty | Hfull].
  - (* nothing was logged after the snapshot *)
    pose proof (step_debounce_empty cfg s5 c _ _ t4 Hlk5 Hempty Hnow5 Hd2)
      as Hs6.
    set (s6 := set_flag c false _) in Hs6.
    eexists s3, _, s6, ([] ++ e5 ++ [] ++ []).
    split; [exact Hfirst|]. split; [exact Hposts3|].
    split_and!; try assumption.
    + cbn [run]. rewrite Hs4, run_app, Hrun5. cbn [run]. rewrite Hs6.
      reflexivity.
    + rewrite <- Hq5', Hempty, !posts_of_app, Hposts5. reflexivity.
    + subst s6. clear - Hempty. destruct c, s5; cbn in *; assumption.
  - (* the retry sends what was logged after the snapshot *)
    pose proof (step_debounce_send cfg s5 c _ _ t4 Hlk5 Hfull Hnow5 Hd2)
      as Hs6.
    set (s6 := set_requests _ _) in Hs6.
    eexists s3, _, s6,
      ([] ++ e5 ++
       [HttpPost c (url_of c cfg) (join newline (queue_of c s5))] ++ []).
    split; [exact Hfirst|]. split; [exact Hposts3|].
    split_and!; try assumption.
    + cbn [run]. rewrite Hs4, run_app, Hrun5. cbn [run]. rewrite Hs6.
      reflexivity.
    + rewrite !posts_of_app, Hposts5. cbn.
      rewrite bool_decide_eq_true_2 by reflexivity.
      rewrite <- Hq5'. destruct (queue_of c s5); [congruence|reflexivity].
    + subst s6. destruct c, s5; reflexivity.
Qed.

Lemma rate_limited_batch_is_not_resent_witness :
  exists s3 e3 s6 e6,
    run bot_hook_only bot_debouncing
      (TimerFires 500 0 :: map (call_event Bot) [call_B]
       ++ [PostSettles 600 (length (requests bot_debouncing))
             (Rejected too_many_requests)])
    = Some (s3, e3)
    /\ posts_of Bot e3
       = [(url_of Bot bot_hook_only,
           join newline (queue_of Bot bot_debouncing))]
    /\ queue_of Bot s3 = map call_line [call_B]
    /\ flag_of Bot s3 = false
    /\ timers s3 = delete 0 (timers bot_debouncing)
                   ++ [{| due := (600 + 5000)%Z;
                          callback := RetryCallback Bot |}]
    /\ run bot_hook_only s3
         (TimerFires 5600 (length (delete 0 (timers bot_debouncing)))
          :: map (call_event Bot) []
          ++ [TimerFires 6100 (length (delete 0 (timers bot_debouncing)))])
       = Some (s6, e6)
    /\ posts_of Bot e6
       = match map call_line ([call_B] ++ []) with
         | [] => []
         | later => [(url_of Bot bot_hook_only, join newline later)]
         end
    /\ queue_of Bot s6 = [].
Proof.
  apply (rate_limited_batch_is_not_resent bot_hook_only Bot bot_debouncing
           "logs/run.log" 0%nat 500%Z 500%Z [call_B] 600%Z too_many_requests
           5600%Z [] 6100%Z).
  - reflexivity.
  - reflexivity.
  - reflexivity.
  - reflexivity.
  - discriminate.
  - cbn. lia.
  - lia.
  - cbn. lia.
  - reflexivity.
  - lia.
  - cbn. lia.
  - lia.
Defined.

(** ** Overlapping flush cycles *)

(** As long as no 429 response is handled, the flag is the gate: it is set
    exactly while one cycle of the channel is in flight. *)
Lemma step_gated cfg c s ev s' effs :
  rate_limit_response ev = false ->
  gated c s ->
  step cfg s ev = Some (s', effs) ->
  gated c s'.
Proof.
  intros Hev [Hno Hcnt] H. unfold gated, cycles_in_flight in *.
  destruct ev as [at_ms msg site ts failure | at_ms i | at_ms i r].
  - destruct c, s as [? ? ? [] [] ? ? ? ?], cfg, site; cbn in *;
      step_inv H; cbn in *;
      (split;
       [ first [ assumption
               | apply Forall_app_2; [assumption|]; repeat constructor;
                 cbn; congruence ]
       | rewrite ?List.filter_app, ?length_app; cbn; lia ]).
  - unfold step in H.
    destruct (timers s !! i) as [t|] eqn:Hi; [|discriminate].
    pose proof (Forall_lookup_1 _ _ _ _ Hno Hi) as Hy.
    pose proof (Forall_delete _ _ i Hno) as Hno'.
    pose proof (count_delete (debounce_of c) _ _ _ Hi) as Hc.
    remember (debounce_of c t) as b eqn:Hb.
    destruct t as [d cb]. cbn in Hy.
    destruct c, s as [? bq ? [] [] sq ? ? ?], cfg, cb as [[]|[]], bq, sq;
      cbn in *; try congruence; subst b;
      step_inv H; cbn in *;
      (split;
       [ first [ assumption
               | apply Forall_app_2; [assumption|]; repeat constructor;
                 cbn; congruence ]
       | rewrite ?List.filter_app, ?length_app; cbn; lia ]).
  - unfold step in H.
    destruct (requests s !! i) as [c'|] eqn:Hi; [|discriminate].
    pose proof (count_delete (channel_eqb c) _ _ _ Hi) as Hc.
    remember (channel_eqb c c') as b eqn:Hb.
    destruct r as [|e]; [|cbn in Hev];
      destruct c, c', s as [? ? ? [] [] ? ? ? ?], cfg;
      cbn in *; subst b; step_inv H; cbn in *;
      (split; [assumption | lia]).
Qed.

Lemma gated_startup c t0 ts0 : gated c (startup t0 ts0).
Proof. destruct c; split; cbn; constructor. Qed.

Lemma run_gated cfg c evs : forall s s' effs,
  Forall (fun ev => rate_limit_response ev = false) evs ->
  gated c s ->
  run cfg s evs = Some (s', effs) ->
  gated c s'.
Proof.
  induction evs as [|ev evs IH]; intros s s' effs Hall Hg H.
  - cbn in H. injection H as <- <-. exact Hg.
  - apply run_cons_inv in H as (s1 & e1 & e2 & Hs & Hr & _).
    inversion Hall as [|? ? Hev Hall']; subst.
    eapply IH; [exact Hall'| |exact Hr].
    eapply step_gated; eassumption.
Qed.

(** Without a 429 response the claim of C2 holds: at most one cycle of a
    channel is in flight, and the flag is set exactly then. *)
Lemma one_cycle_without_rate_limit cfg c t0 ts0 evs s effs :
  Forall (fun ev => rate_limit_response ev = false) evs ->
  run cfg (startup t0 ts0) evs = Some (s, effs) ->
  (cycles_in_flight c s <= 1)%nat
  /\ (flag_of c s = true <-> cycles_in_flight c s = 1%nat).
Proof.
  intros Hall Hr.
  destruct (run_gated cfg c evs _ _ _ Hall (gated_startup c t0 ts0) Hr)
    as [_ Hc].
  rewrite Hc. destruct (flag_of c s); split; try lia;
    split; congruence.
Qed.

(** C2 fails on the code: the retry callback starts a flush cycle without
    consulting the flag, and the flag is clear during the backoff, so a
    call of [log] in that interval starts a cycle of its own.  After the
    first five turns of [overlapping_run] two cycles of the bot channel
    wait for their debounce timers; at the end two requests of the bot
    channel are awaited at the same time. *)
Theorem two_flush_cycles_in_flight :
  exists s5 e5 s8 e8,
    run bot_hook_only fresh (take 5 overlapping_run) = Some (s5, e5)
    /\ cycles_in_flight Bot s5 = 2%nat
    /\ timers s5 = [debounce_timer 5400 Bot; debounce_timer 5600 Bot]
    /\ run bot_hook_only fresh overlapping_run = Some (s8, e8)
    /\ requests s8 = [Bot; Bot]
    /\ deliveries_in_flight Bot s8 = 2%nat
    /\ posts_of Bot e8
       = [(Some "https://hook/bot", "[t] A");
          (Some "https://hook/bot", "[t] B");
          (Some "https://hook/bot", "[t] C")].
Proof.
  eexists _, _, _, _.
  split; [vm_compute; reflexivity|].
  split; [vm_compute; reflexivity|].
  split; [vm_compute; reflexivity|].
  split; [vm_compute; reflexivity|].
  split; [vm_compute; reflexivity|].
  split; vm_compute; reflexivity.
Qed.

(** ** The log file of a run *)

Lemma string_app_assoc (a b c : string) : (a +:+ b) +:+ c = a +:+ (b +:+ c).
Proof.
  induction a as [|x a IH]; [reflexivity|].
  change (String x ((a +:+ b) +:+ c) = String x (a +:+ (b +:+ c))).
  f_equal. exact IH.
Qed.

Lemma logged_lines_cons ev evs :
  logged_lines (ev :: evs) = logged_lines [ev] ++ logged_lines evs.
Proof. destruct ev as [a m site ts [err|] | |]; reflexivity. Qed.

Lemma file_effects_app e1 e2 :
  file_effects (e1 ++ e2) = file_effects e1 ++ file_effects e2.
Proof.
  induction e1 as [|e e1 IH]; [reflexivity|].
  destruct e; cbn; rewrite ?IH; reflexivity.
Qed.

(** Only a call of [log] writes to the file: one append per call. *)
Lemma step_file_effects cfg s ev s' effs p :
  currentLogFile s = Some p ->
  step cfg s ev = Some (s', effs) ->
  file_effects effs
  = map (fun l => AppendFile p (l +:+ newline)) (logged_lines [ev]).
Proof.
  intros Hp H.
  destruct s, cfg, ev as [a m site ts [err|] | |]; cbn in *; subst;
    step_inv H; reflexivity.
Qed.

Lemma run_file_effects cfg evs : forall s s' effs p,
  currentLogFile s = Some p ->
  run cfg s evs = Some (s', effs) ->
  file_effects effs
  = map (fun l => AppendFile p (l +:+ newline)) (logged_lines evs).
Proof.
  induction evs as [|ev evs IH]; intros s s' effs p Hp H.
  - cbn in H. injection H as <- <-. reflexivity.
  - apply run_cons_inv in H as (s1 & e1 & e2 & Hs & Hr & ->).
    assert (Hp1 : currentLogFile s1 = Some p)
      by (rewrite (step_currentLogFile _ _ _ _ _ Hs); exact Hp).
    rewrite file_effects_app, logged_lines_cons, map_app.
    rewrite (step_file_effects _ _ _ _ _ _ Hp Hs), (IH _ _ _ _ Hp1 Hr).
    reflexivity.
Qed.

Lemma file_content_file_effects path effs : forall before,
  file_content path effs before = file_content path (file_effects effs) before.
Proof.
  induction effs as [|e effs IH]; intros before; [reflexivity|].
  destruct e; cbn; apply IH.
Qed.

Lemma file_content_appends path lines : forall text,
  file_content path
    (map (fun l => AppendFile path (l +:+ newline)) lines) (Some text)
  = Some (text +:+ lines_text lines).
Proof.
  induction lines as [|l lines IH]; intros text; cbn.
  - f_equal. induction text as [|x text IHt]; [reflexivity|].
    change (String x text = String x (text +:+ "")). f_equal. exact IHt.
  - rewrite String.eqb_refl. cbn. rewrite IH, string_app_assoc. reflexivity.
Qed.

(** X1: in a run from the load of the module, the writes to files are the
    header written by [createLogFile] followed by one append per call of
    [log] whose append succeeded, in call order, all to the file of the
    run; timers, requests and their outcomes write nothing to it.  The
    file then holds the header and the logged lines, each followed by a
    newline, whatever a file of that name held before. *)
Theorem log_file_holds_every_line cfg t0 ts0 evs s effs before :
  run cfg (startup t0 ts0) evs = Some (s, effs) ->
  file_effects ((turn (createLogFile ts0) (module_loaded t0)).2 ++ effs)
  = WriteFile ("logs/" +:+ ts0 +:+ ".log")
      ("Log started at: " +:+ ts0 +:+ newline +:+ newline)
    :: map (fun l => AppendFile ("logs/" +:+ ts0 +:+ ".log") (l +:+ newline))
         (logged_lines evs)
  /\ file_content ("logs/" +:+ ts0 +:+ ".log")
       ((turn (createLogFile ts0) (module_loaded t0)).2 ++ effs) before
     = Some (("Log started at: " +:+ ts0 +:+ newline +:+ newline)
             +:+ lines_text (logged_lines evs)).
Proof.
  intros Hr.
  pose proof (run_file_effects cfg evs _ _ _ _
                (startup_currentLogFile t0 ts0) Hr) as Hf.
  assert (Hall :
    file_effects ((turn (createLogFile ts0) (module_loaded t0)).2 ++ effs)
    = WriteFile ("logs/" +:+ ts0 +:+ ".log")
        ("Log started at: " +:+ ts0 +:+ newline +:+ newline)
      :: map (fun l => AppendFile ("logs/" +:+ ts0 +:+ ".log")
                         (l +:+ newline)) (logged_lines evs)).
  { rewrite file_effects_app, Hf. reflexivity. }
  split; [exact Hall|].
  rewrite file_content_file_effects, Hall.
  cbn [file_content]. rewrite String.eqb_refl.
  apply file_content_appends.
Qed.

Lemma log_file_holds_every_line_witness :
  exists s effs,
    run bot_hook_only fresh line_logged_during_request = Some (s, effs)
    /\ file_content "logs/2024-01-01_00-00-00.log"
         ((turn (createLogFile "2024-01-01_00-00-00") (module_loaded 0)).2
          ++ effs) (Some "old")
       = Some (("Log started at: " +:+ "2024-01-01_00-00-00" +:+ newline
                +:+ newline)
               +:+ lines_text ["[t] A"; "[t] B"]).
Proof.
  pose proof (fun s effs H =>
                proj2 (log_file_holds_every_line bot_hook_only 0%Z
                         "2024-01-01_00-00-00" line_logged_during_request
                         s effs (Some "old") H)) as H.
  eexists _, _. split; [vm_compute; reflexivity|].
  eapply H. vm_compute. reflexivity.
Defined.

(** ** A channel at rest *)

Lemma step_idle cfg c s ev s' effs :
  idle c s ->
  feeds c ev = false ->
  step cfg s ev = Some (s', effs) ->
  idle c s' /\ posts_of c effs = [] /\ queue_of c s' = queue_of c s
  /\ flag_of c s' = flag_of c s.
Proof.
  intros [Hcnt Hno] Hfeed H. unfold idle, cycles_in_flight in *.
  destruct ev as [at_ms msg site ts failure | at_ms i | at_ms i r].
  - destruct c, site; cbn in Hfeed;
      try (apply bool_decide_eq_false_1 in Hfeed; congruence);
      destruct s, cfg; cbn in *; step_inv H; cbn in *;
      (split_and!;
       [ rewrite ?List.filter_app, ?length_app; cbn; lia
       | first [ assumption
               | apply Forall_app_2; [assumption|]; repeat constructor;
                 cbn; congruence ]
       | reflexivity | reflexivity | reflexivity ]).
  - unfold step in H.
    destruct (timers s !! i) as [t|] eqn:Hi; [|discriminate].
    pose proof (Forall_lookup_1 _ _ _ _ Hno Hi) as Hy.
    pose proof (Forall_delete _ _ i Hno) as Hno'.
    pose proof (count_delete (debounce_of c) _ _ _ Hi) as Hc.
    remember (debounce_of c t) as b eqn:Hb.
    destruct t as [d cb]. cbn in Hy.
    destruct c, s as [? bq ? ? ? sq ? ? ?], cfg, cb as [[]|[]], bq, sq;
      cbn in *; try congruence; subst b; try lia;
      step_inv H; cbn in *;
      (split_and!;
       [ rewrite ?List.filter_app, ?length_app; cbn; lia
       | first [ assumption
               | apply Forall_app_2; [assumption|]; repeat constructor;
                 cbn; congruence ]
       | reflexivity | reflexivity | reflexivity ]).
  - unfold step in H.
    destruct (requests s !! i) as [c'|] eqn:Hi; [|discriminate].
    pose proof (count_delete (channel_eqb c) _ _ _ Hi) as Hc.
    remember (channel_eqb c c') as b eqn:Hb.
    destruct r as [|e]; [|destruct (rate_limited e) eqn:He];
      destruct c, c', s, cfg;
      cbn in *; subst b; try lia; step_inv H; cbn in *;
      (split_and!;
       [ rewrite ?List.filter_app, ?length_app; cbn; lia
       | first [ assumption
               | apply Forall_app_2; [assumption|]; repeat constructor;
                 cbn; congruence ]
       | reflexivity | reflexivity | reflexivity ]).
Qed.

(** X2: when no flush cycle of channel [c] is in flight and no retry of
    [c] is armed, nothing but a call of [log] for [c] starts one: whatever
    else happens (calls for the other channel, its timers and requests),
    no request is sent for [c] and the queue and the flag of [c] stay as
    they are.  Lines queued while a request was awaited are therefore not
    sent when the request settles: they wait for the next call of [log]
    for the channel. *)
Theorem pending_lines_wait_for_the_next_call cfg c evs : forall s s' effs,
  idle c s ->
  Forall (fun ev => feeds c ev = false) evs ->
  run cfg s evs = Some (s', effs) ->
  idle c s' /\ posts_of c effs = [] /\ queue_of c s' = queue_of c s
  /\ flag_of c s' = flag_of c s.
Proof.
  induction evs as [|ev evs IH]; intros s s' effs Hidle Hall H.
  - cbn in H. injection H as <- <-. auto.
  - apply run_cons_inv in H as (s1 & e1 & e2 & Hs & Hr & ->).
    inversion Hall as [|? ? Hev Hall']; subst.
    destruct (step_idle _ _ _ _ _ _ Hidle Hev Hs) as (Hi1 & Hp1 & Hq1 & Hf1).
    destruct (IH _ _ _ Hi1 Hall' Hr) as (Hi2 & Hp2 & Hq2 & Hf2).
    split_and!; try congruence.
    rewrite posts_of_app, Hp1, Hp2. reflexivity.
Qed.

Lemma pending_lines_wait_for_the_next_call_witness :
  exists s1 e1 s2 e2,
    run both_hooks fresh line_logged_during_request = Some (s1, e1)
    /\ queue_of Bot s1 = ["[t] B"]
    /\ run both_hooks s1
         [CallLog 700 "S" true "t" None; TimerFires 1200 0;
          PostSettles 1300 0 Resolved] = Some (s2, e2)
    /\ posts_of Site e2 = [(Some "https://hook/site", "[t] S")]
    /\ idle Bot s2 /\ posts_of Bot e2 = []
    /\ queue_of Bot s2 = queue_of Bot s1 /\ flag_of Bot s2 = flag_of Bot s1.
Proof.
  eexists _, _, _, _.
  split; [vm_compute; reflexivity|].
  split; [reflexivity|].
  split; [vm_compute; reflexivity|].
  split; [vm_compute; reflexivity|].
  eapply (pending_lines_wait_for_the_next_call both_hooks Bot
            [CallLog 700 "S" true "t" None; TimerFires 1200 0;
             PostSettles 1300 0 Resolved]).
  - split; [reflexivity | constructor].
  - repeat constructor.
  - vm_compute. reflexivity.
Defined.

(** ** One cycle at a time, unless a request is answered with 429 *)

(** X3: in a run from start-up in which no request is answered with 429,
    the flag of a channel is set exactly while one flush cycle of the
    channel is in flight: there is never more than one cycle, never more
    than one request of the channel awaited, and no retry is armed. *)
Theorem one_delivery_at_a_time_without_rate_limit
    cfg c t0 ts0 evs s effs :
  Forall (fun ev => rate_limit_response ev = false) evs ->
  run cfg (startup t0 ts0) evs = Some (s, effs) ->
  cycles_in_flight c s = (if flag_of c s then 1%nat else 0%nat)
  /\ (deliveries_in_flight c s <= 1)%nat
  /\ Forall (fun t => callback t <> RetryCallback c) (timers s).
Proof.
  intros Hall Hr.
  destruct (run_gated cfg c evs _ _ _ Hall (gated_startup c t0 ts0) Hr)
    as [Hno Hc].
  split_and!; [exact Hc | | exact Hno].
  unfold cycles_in_flight in Hc. unfold deliveries_in_flight.
  destruct (flag_of c s); lia.
Qed.

Lemma one_delivery_at_a_time_without_rate_limit_witness :
  exists s effs,
    run both_hooks fresh
      (line_logged_during_request
       ++ [CallLog 700 "S" true "t" None; CallLog 800 "C" false "t" None])
    = Some (s, effs)
    /\ cycles_in_flight Bot s = (if flag_of Bot s then 1%nat else 0%nat)
    /\ (deliveries_in_flight Bot s <= 1)%nat
    /\ Forall (fun t => callback t <> RetryCallback Bot) (timers s).
Proof.
  eexists _, _. split; [vm_compute; reflexivity|].
  eapply (one_delivery_at_a_time_without_rate_limit both_hooks Bot 0%Z
            "2024-01-01_00-00-00"
            (line_logged_during_request
             ++ [CallLog 700 "S" true "t" None;
                 CallLog 800 "C" false "t" None])).
  - repeat constructor.
  - vm_compute. reflexivity.
Defined.

(** ** What a request carries *)

Lemma elem_of_posts_of c effs url content :
  HttpPost c url content ∈ effs -> (url, content) ∈ posts_of c effs.
Proof.
  induction effs as [|e effs IH]; intros Hin.
  - apply elem_of_nil in Hin. contradiction.
  - apply elem_of_cons in Hin as [<- | Hin].
    + cbn. rewrite bool_decide_eq_true_2 by reflexivity.
      apply elem_of_cons. left. reflexivity.
    + specialize (IH Hin). destruct e; cbn; try exact IH.
      case_bool_decide; [apply elem_of_cons; right|]; exact IH.
Qed.

Lemma entries_of_formatted c evs x :
  x ∈ entries_of c evs -> exists ts m, x = formatted ts m.
Proof.
  induction evs as [|ev evs IH]; cbn; intros Hin.
  - apply elem_of_nil in Hin. contradiction.
  - destruct ev as [a m site ts [err|] | |]; auto.
    case_bool_decide; auto.
    apply elem_of_cons in Hin as [-> | Hin]; eauto.
Qed.

Lemma join_nonempty sep x rest : x <> "" -> join sep (x :: rest) <> "".
Proof.
  intros Hx. destruct x as [|a x]; [congruence|].
  destruct rest; cbn; [discriminate|].
  change (String a (x +:+ sep +:+ join sep (s :: rest)) <> ""). discriminate.
Qed.

(** X4: every request of a run from start-up goes to the URL configured
    for its channel, which is a non-empty string, and carries a non-empty
    content: [axios.post] is never called with an undefined or empty URL,
    nor with an empty batch. *)
Theorem requests_have_url_and_content cfg t0 ts0 evs s effs c url content :
  run cfg (startup t0 ts0) evs = Some (s, effs) ->
  HttpPost c url content ∈ effs ->
  url = url_of c cfg /\ truthy url = true /\ content <> "".
Proof.
  intros Hr Hin. apply elem_of_posts_of in Hin.
  destruct (truthy (url_of c cfg)) eqn:Hu.
  - destruct (run_batches cfg c evs _ _ _ _ (startup_currentLogFile t0 ts0)
                Hu Hr) as (bs & Hposts & Hne & Hq).
    rewrite Hposts in Hin.
    apply list_elem_of_fmap in Hin as (b & Heq & Hb).
    injection Heq as -> ->.
    split; [reflexivity|]. split; [exact Hu|].
    pose proof (proj1 (Forall_forall _ _) Hne b Hb) as Hbne.
    destruct b as [|x rest]; [congruence|].
    apply join_nonempty.
    assert (Hx : x ∈ entries_of c evs).
    { assert (Hx' : x ∈ queue_of c (startup t0 ts0) ++ entries_of c evs).
      { rewrite Hq. apply elem_of_app. left.
        apply list_elem_of_In, in_concat. exists (x :: rest).
        split; [apply list_elem_of_In; exact Hb | left; reflexivity]. }
      destruct c; exact Hx'. }
    apply entries_of_formatted in Hx as (ts & m & ->).
    unfold formatted. discriminate.
  - destruct (run_quiet _ _ _ _ _ _ Hu (quiet_startup c t0 ts0) Hr)
      as [_ Hp].
    rewrite Hp in Hin. apply elem_of_nil in Hin. contradiction.
Qed.

Lemma requests_have_url_and_content_witness :
  exists s effs,
    run bot_hook_only fresh retried_run = Some (s, effs)
    /\ HttpPost Bot (Some "https://hook/bot") "[t] A" ∈ effs
    /\ Some "https://hook/bot" = url_of Bot bot_hook_only
    /\ truthy (Some "https://hook/bot") = true
    /\ "[t] A" <> "".
Proof.
  pose proof (fun s effs =>
                requests_have_url_and_content bot_hook_only 0%Z
                  "2024-01-01_00-00-00" retried_run s effs Bot
                  (Some "https://hook/bot") "[t] A") as H.
  eexists _, _. split; [vm_compute; reflexivity|].
  assert (Hin : HttpPost Bot (Some "https://hook/bot") "[t] A"
                ∈ [ConsoleLog "[t] A";
                   AppendFile "logs/2024-01-01_00-00-00.log"
                     ("[t] A" +:+ newline);
                   HttpPost Bot (Some "https://hook/bot") "[t] A";
                   ConsoleLog "[t] B";
                   AppendFile "logs/2024-01-01_00-00-00.log"
                     ("[t] B" +:+ newline);
                   ConsoleLog "Rate limited. Retrying after 5 seconds...";
                   HttpPost Bot (Some "https://hook/bot") "[t] B"]).
  { apply elem_of_cons. right. apply elem_of_cons. right.
    apply elem_of_cons. left. reflexivity. }
  split; [exact Hin|].
  eapply H; [vm_compute; reflexivity | exact Hin].
Defined.

(** ** The array declared at line 15 *)

Lemma step_siteLogQueue cfg s ev s' effs :
  step cfg s ev = Some (s', effs) -> siteLogQueue s' = siteLogQueue s.
Proof.
  intros H. destruct s, ev; step_inv H; reflexivity.
Qed.

Lemma step_set_siteLogQueue cfg s ev s' effs v :
  step cfg s ev = Some (s', effs) ->
  step cfg (set_siteLogQueue v s) ev = Some (set_siteLogQueue v s', effs).
Proof.
  intros H.
  destruct s, cfg, ev; step_inv H; cbn in *; simplify_eq; recompute.
Qed.

Lemma run_set_siteLogQueue cfg v evs : forall s s' effs,
  run cfg s evs = Some (s', effs) ->
  run cfg (set_siteLogQueue v s) evs = Some (set_siteLogQueue v s', effs).
Proof.
  induction evs as [|ev evs IH]; intros s s' effs H.
  - cbn in H. injection H as <- <-. reflexivity.
  - apply run_cons_inv in H as (s1 & e1 & e2 & Hs & Hr & ->).
    cbn [run]. rewrite (step_set_siteLogQueue _ _ _ _ _ v Hs), (IH _ _ _ Hr).
    reflexivity.
Qed.

Lemma run_siteLogQueue cfg evs : forall s0 s effs,
  run cfg s0 evs = Some (s, effs) -> siteLogQueue s = siteLogQueue s0.
Proof.
  induction evs as [|ev evs IH]; intros s0 s effs H.
  - cbn in H. injection H as <- <-. reflexivity.
  - apply run_cons_inv in H as (s1 & e1 & e2 & Hs & Hr & _).
    rewrite (IH _ _ _ Hr). eapply step_siteLogQueue; eassumption.
Qed.

(** X5: no turn writes or reads the array [siteLogQueue] of line 15: it
    holds after a run what it held before, and the run does the same,
    with the same effects, whatever the array holds.  The lines of the
    site channel are kept in [siteWebhookQueue]: what the site calls of
    [log] append goes, in order, into the batches sent for the site
    channel and what [siteWebhookQueue] still holds. *)
Theorem siteLogQueue_is_never_used cfg evs s0 s effs :
  run cfg s0 evs = Some (s, effs) ->
  siteLogQueue s = siteLogQueue s0
  /\ (forall v,
        run cfg (set_siteLogQueue v s0) evs
        = Some (set_siteLogQueue v s, effs))
  /\ (forall p,
        currentLogFile s0 = Some p ->
        truthy (sharedSiteWebhookURL cfg) = true ->
        exists batches : list (list string),
          posts_of Site effs
          = map (fun b => (sharedSiteWebhookURL cfg, join newline b)) batches
          /\ siteWebhookQueue s0 ++ entries_of Site evs
             = concat batches ++ siteWebhookQueue s).
Proof.
  intros H. split_and!.
  - exact (run_siteLogQueue cfg evs s0 s effs H).
  - intros v. exact (run_set_siteLogQueue cfg v evs s0 s effs H).
  - intros p Hp Hu.
    destruct (run_batches cfg Site evs s0 s effs p Hp Hu H)
      as (bs & H1 & _ & H3).
    exists bs. split; [exact H1 | exact H3].
Qed.

Lemma siteLogQueue_is_never_used_witness :
  exists s effs,
    run both_hooks fresh
      [CallLog 0 "S" true "t" None; TimerFires 500 0;
       CallLog 550 "T" true "t" None; PostSettles 600 0 Resolved]
    = Some (s, effs)
    /\ siteLogQueue s = siteLogQueue fresh
    /\ (forall v,
          run both_hooks (set_siteLogQueue v fresh)
            [CallLog 0 "S" true "t" None; TimerFires 500 0;
             CallLog 550 "T" true "t" None; PostSettles 600 0 Resolved]
          = Some (set_siteLogQueue v s, effs))
    /\ (forall p,
          currentLogFile fresh = Some p ->
          truthy (sharedSiteWebhookURL both_hooks) = true ->
          exists batches : list (list string),
            posts_of Site effs
            = map (fun b => (sharedSiteWebhookURL both_hooks,
                             join newline b)) batches
            /\ siteWebhookQueue fresh
               ++ entries_of Site
                    [CallLog 0 "S" true "t" None; TimerFires 500 0;
                     CallLog 550 "T" true "t" None;
                     PostSettles 600 0 Resolved]
               = concat batches ++ siteWebhookQueue s).
Proof.
  eexists _, _. split; [vm_compute; reflexivity|].
  apply (siteLogQueue_is_never_used both_hooks
           [CallLog 0 "S" true "t" None; TimerFires 500 0;
            CallLog 550 "T" true "t" None; PostSettles 600 0 Resolved]
           fresh).
  vm_compute. reflexivity.
Defined.

(** ** Several calls of [log] in one turn *)





(** ** [endsWith] *)

Section EndsWith.

#[local] Arguments String.append !s1 s2 /.

Lemma length_append (a b : string) :
  String.length (a +:+ b) = (String.length a + String.length b)%nat.
Proof. induction a as [|x a IH]; cbn; [reflexivity|]. rewrite IH. reflexivity. Qed.

Lemma substring_all (s : string) : String.substring 0 (String.length s) s = s.
Proof. induction s as [|x s IH]; cbn; [reflexivity|]. rewrite IH. reflexivity. Qed.

Lemma substring_skip (pre suf : string) (m : nat) :
  String.substring (String.length pre) m (pre +:+ suf)
  = String.substring 0 m suf.
Proof. induction pre as [|x pre IH]; cbn; [reflexivity|]. exact IH. Qed.

Lemma substring_split (s : string) : forall j,
  (j <= String.length s)%nat ->
  s = String.substring 0 j s
      +:+ String.substring j (String.length s - j) s.
Proof.
  induction s as [|x s IH]; intros [|j] Hj; cbn in *; try lia.
  - reflexivity.
  - rewrite substring_all. reflexivity.
  - rewrite <- (IH j) by lia. reflexivity.
Qed.

(** [endsWith s suffix] holds exactly when [s] is some text followed by
    [suffix]. *)
Lemma endsWith_spec (s suffix : string) :
  endsWith s suffix = true <-> exists pre, s = pre +:+ suffix.
Proof.
  unfold endsWith. rewrite andb_true_iff, Nat.leb_le, String.eqb_eq. split.
  - intros [Hk Hs].
    exists (String.substring 0 (String.length s - String.length suffix) s).
    assert (Hj : (String.length s - String.length suffix
                  <= String.length s)%nat) by lia.
    pose proof (substring_split s _ Hj) as H.
    replace (String.length s - (String.length s - String.length suffix))%nat
      with (String.length suffix) in H by lia.
    rewrite Hs in H. exact H.
  - intros [pre ->]. rewrite length_append. split; [lia|].
    replace (String.length pre + String.length suffix
             - String.length suffix)%nat
      with (String.length pre) by lia.
    rewrite substring_skip. apply substring_all.
Qed.

End EndsWith.

(** ** Loading the commands *)

Lemma loadCommand_spec env file cs :
  exists acts,
    loadCommand env file cs
    = (Normal tt, cs ++ option_list (registered env file), acts)
    /\ log_messages acts = [report env file]
    /\ (forall path, Require path ∈ acts <-> path = "./commands/" +:+ file).
Proof.
  unfold registered, report. unfold_k.
  destruct (required env ("./commands/" +:+ file)) as [m|err]; cbn.
  - destruct (module_setup m); cbn; rewrite ?app_nil_r;
      eexists; (split; [reflexivity|]); (split; [reflexivity|]);
      intros path; (split; [intros Hin; mem_cases Hin; congruence
                           | intros ->; apply elem_of_cons; left; reflexivity]).
  - rewrite app_nil_r.
    eexists; (split; [reflexivity|]); (split; [reflexivity|]).
    intros path; split; [intros Hin; mem_cases Hin; congruence
                        | intros ->; apply elem_of_cons; left; reflexivity].
Qed.

Lemma log_messages_app a1 a2 :
  log_messages (a1 ++ a2) = log_messages a1 ++ log_messages a2.
Proof.
  induction a1 as [|a a1 IH]; [reflexivity|].
  destruct a; cbn; rewrite ?IH; reflexivity.
Qed.

Lemma for_of_loadCommand env files : forall cs,
  exists acts,
    for_of files (loadCommand env) cs
    = (Normal tt, cs ++ omap (registered env) files, acts)
    /\ log_messages acts = map (report env) files
    /\ (forall path,
          Require path ∈ acts
          <-> exists file, file ∈ files /\ path = "./commands/" +:+ file).
Proof.
  induction files as [|file files IH]; intros cs.
  - exists []. cbn. rewrite app_nil_r. split_and!; try reflexivity.
    intros path. split.
    + intros Hin. apply elem_of_nil in Hin. contradiction.
    + intros (file & Hin & _). apply elem_of_nil in Hin. contradiction.
  - destruct (loadCommand_spec env file cs) as (a1 & H1 & L1 & R1).
    destruct (IH (cs ++ option_list (registered env file)))
      as (a2 & H2 & L2 & R2).
    exists (a1 ++ a2). split_and!.
    + cbn [for_of]. unfold mbind, K_bind. rewrite H1, H2.
      cbn [omap list_omap]. destruct (registered env file) as [d|]; cbn.
      * rewrite <- app_assoc. reflexivity.
      * rewrite app_nil_r. reflexivity.
    + rewrite log_messages_app, L1, L2. reflexivity.
    + intros path. rewrite elem_of_app, R1, R2. split.
      * intros [-> | (f & Hf & ->)].
        -- exists file. split; [apply elem_of_cons; left|]; reflexivity.
        -- exists f. split; [apply elem_of_cons; right; exact Hf|reflexivity].
      * intros (f & [-> | Hf]%elem_of_cons & ->); [left; reflexivity|].
        right. exists f. auto.
Qed.

Lemma loadCommands_for_of env files cs :
  existsSync env "./commands" = true ->
  readdirSync env "./commands" = Normal files ->
  loadCommands env cs
  = for_of (List.filter (fun file => endsWith file ".js") files)
      (loadCommand env) cs.
Proof.
  intros He Hd.
  unfold loadCommands, try_catch, returned, commandsFolder.
  rewrite He, Hd. cbn [negb]. unfold mbind, mret, K_bind, K_ret.
  destruct (for_of _ _ cs) as [[[u|err] cs'] acts] eqn:Hf.
  - destruct u. rewrite app_nil_l. reflexivity.
  - destruct (for_of_loadCommand env
                (List.filter (fun file => endsWith file ".js") files) cs)
      as (a & Ha & _).
    rewrite Ha in Hf. discriminate.
Qed.

Lemma loadCommands_normal env cs : (loadCommands env cs).1.1 = Normal tt.
Proof.
  destruct (existsSync env "./commands") eqn:He.
  - destruct (readdirSync env "./commands") as [files|err] eqn:Hd.
    + rewrite (loadCommands_for_of env files cs He Hd).
      destruct (for_of_loadCommand env
                  (List.filter (fun file => endsWith file ".js") files) cs)
        as (acts & -> & _). reflexivity.
    + unfold loadCommands, try_catch, returned, commandsFolder.
      rewrite He, Hd. reflexivity.
  - unfold loadCommands, try_catch, commandsFolder. rewrite He. reflexivity.
Qed.

(** X7: without the folder [./commands], [loadCommands] reads no
    directory and requires no file: it reports the missing folder in one
    call of [log], leaves [commands] as it was and completes normally. *)
Theorem loadCommands_without_folder env cs :
  existsSync env "./commands" = false ->
  loadCommands env cs
  = (Normal tt, cs,
     [Log "Error during command loading: Error: Commands folder not found."]).
Proof.
  intros He. unfold_k. unfold commandsFolder. rewrite He. reflexivity.
Qed.

Lemma loadCommands_without_folder_witness :
  loadCommands {| existsSync := fun _ => false;
                  readdirSync := fun _ => Normal ["setjobs.js"];
                  required := fun _ => Normal setjobs |} []
  = (Normal tt, [],
     [Log "Error during command loading: Error: Commands folder not found."]).
Proof.
  apply (loadCommands_without_folder
           {| existsSync := fun _ => false;
              readdirSync := fun _ => Normal ["setjobs.js"];
              required := fun _ => Normal setjobs |} []).
  reflexivity.
Defined.

(** X8: when the folder can be listed, [loadCommands] requires exactly the
    files whose name ends in [.js], in directory order; it calls [log]
    once per such file (loaded, invalid structure, or the error thrown by
    [require] or [setup]); a file that fails does not stop the loop; the
    [data] of every file that did not throw is added at the end of
    [commands], also when the file has no [setup] function; and
    [loadCommands] completes normally. *)
Theorem loadCommands_reports_and_registers env files cs :
  existsSync env "./commands" = true ->
  readdirSync env "./commands" = Normal files ->
  exists acts,
    loadCommands env cs
    = (Normal tt,
       cs ++ omap (registered env)
               (List.filter (fun file => endsWith file ".js") files),
       acts)
    /\ log_messages acts
       = map (report env)
           (List.filter (fun file => endsWith file ".js") files)
    /\ (forall path,
          Require path ∈ acts
          <-> exists stem,
                stem +:+ ".js" ∈ files
                /\ path = "./commands/" +:+ stem +:+ ".js").
Proof.
  intros He Hd. rewrite (loadCommands_for_of env files cs He Hd).
  destruct (for_of_loadCommand env
              (List.filter (fun file => endsWith file ".js") files) cs)
    as (acts & H & L & R).
  exists acts. split_and!; [exact H | exact L |].
  intros path. rewrite R. split.
  - intros (f & Hf & ->).
    apply list_elem_of_In, List.filter_In in Hf as [Hf Hjs].
    apply endsWith_spec in Hjs as [stem ->].
    exists stem. split; [apply list_elem_of_In; exact Hf | reflexivity].
  - intros (stem & Hf & ->). exists (stem +:+ ".js"). split; [|reflexivity].
    apply list_elem_of_In, List.filter_In. split;
      [apply list_elem_of_In; exact Hf |].
    apply endsWith_spec. exists stem. reflexivity.
Qed.

Lemma loadCommands_reports_and_registers_witness :
  exists acts,
    loadCommands mixed_folder []
    = (Normal tt,
       [] ++ omap (registered mixed_folder)
               (List.filter (fun file => endsWith file ".js")
                  ["ping.js"; "broken.js"; "notes.txt"; "missing.js";
                   "setjobs.js"]),
       acts)
    /\ log_messages acts
       = map (report mixed_folder)
           (List.filter (fun file => endsWith file ".js")
              ["ping.js"; "broken.js"; "notes.txt"; "missing.js";
               "setjobs.js"])
    /\ (forall path,
          Require path ∈ acts
          <-> exists stem,
                stem +:+ ".js"
                ∈ ["ping.js"; "broken.js"; "notes.txt"; "missing.js";
                   "setjobs.js"]
                /\ path = "./commands/" +:+ stem +:+ ".js").
Proof.
  apply (loadCommands_reports_and_registers mixed_folder
           ["ping.js"; "broken.js"; "notes.txt"; "missing.js"; "setjobs.js"]
           []).
  - reflexivity.
  - reflexivity.
Defined.

Example loadCommands_mixed_folder :
  loadCommands mixed_folder []
  = (Normal tt,
     [Some {| data_name := "ping"; data_description := "Ping" |};
      module_data setjobs],
     [Require "./commands/ping.js"; Setup "./commands/ping.js";
      Log "Command ping.js loaded successfully.";
      Require "./commands/broken.js"; Setup "./commands/broken.js";
      Log "Error loading command from broken.js: Error: boom";
      Require "./commands/missing.js";
      Log "Error loading command from missing.js: Error: Cannot find module";
      Require "./commands/setjobs.js";
      Log "Invalid command structure in setjobs.js."]).
Proof. vm_compute. reflexivity. Qed.


(** ** Registering the commands *)

Lemma refreshSlashCommands_normal env cs :
  exists acts, refreshSlashCommands env cs = (Normal tt, cs, acts).
Proof.
  destruct env as [[e|e|id] [pf|]]; unfold_k; cbn; eexists; reflexivity.
Qed.


(** ** The handler of [ready] *)

(** X10: the handler of [ready] completes normally in every case.  It
    logs the login, loads the commands, registers what [commands] then
    holds, and calls [spawn] for the site server exactly once, after the
    registration, also when the folder is missing, a command fails to
    load or the registration fails; only a failure of [spawn] itself is
    reported as an error during start-up. *)
Theorem onReady_always_starts_the_site_server env cs :
  exists cs' acts_load acts_refresh,
    loadCommands (loader env) cs = (Normal tt, cs', acts_load)
    /\ refreshSlashCommands (refresher env) cs'
       = (Normal tt, cs', acts_refresh)
    /\ onReady env cs
       = (Normal tt, cs',
          Log ("Logged in as " +:+ user_tag env)
          :: acts_load ++ acts_refresh
             ++ Spawn "node" ["site/serve.js"]
                :: match spawn_failure env with
                   | None => []
                   | Some err => [Log ("Error during startup: " +:+ err)]
                   end).
Proof.
  pose proof (loadCommands_normal (loader env) cs) as Hn.
  destruct (loadCommands (loader env) cs) as [[r cs'] al] eqn:Hl.
  cbn in Hn. subst r.
  destruct (refreshSlashCommands_normal (refresher env) cs') as [ar Hr].
  exists cs', al, ar. split; [reflexivity|]. split; [exact Hr|].
  unfold onReady, try_catch, not_awaited, startSiteServer, outcome, act,
    kthrow, mbind, mret, K_bind, K_ret.
  rewrite Hl, Hr.
  destruct (spawn_failure env) as [err|]; cbn;
    rewrite ?app_nil_r, <- ?app_assoc; reflexivity.
Qed.

(** ** The handler of [interactionCreate] *)

Lemma handler_of_Some name path :
  handler_of name = Some path ->
  path = "./commands/" +:+ name
  /\ name ∈ ["ping"; "hello"; "help"; "info"].
Proof.
  unfold handler_of. intros H.
  repeat match type of H with
  | (if String.eqb ?a ?b then _ else _) = _ =>
      destruct (String.eqb_spec a b) as [->|_]
  end; try discriminate H; injection H as <-;
    (split; [reflexivity|]); repeat constructor.
Qed.

(** X11: when the handler of one of the four commands throws, the error
    is passed to [log] with the name of the command between quotes, and
    the user is sent the reply "An error occurred while processing the
    command."; the array [commands] is untouched, and the handler of the
    interaction rejects only when sending that reply fails. *)
Theorem handler_failure_is_logged_and_answered i path err cs :
  isCommand i = true ->
  handler_of (commandName i) = Some path ->
  execute_failure i = Some err ->
  path = "./commands/" +:+ commandName i
  /\ onInteractionCreate i cs
     = (completion_of (reply_failure i), cs,
        [Execute path;
         Log ("Error handling command " +:+ quote +:+ commandName i
              +:+ quote +:+ ": " +:+ err);
         Reply "An error occurred while processing the command."]).
Proof.
  intros Hc Hh He. split; [apply (handler_of_Some _ _ Hh)|].
  unfold_k. rewrite Hc, Hh, He. cbn.
  destruct (reply_failure i); reflexivity.
Qed.

Lemma handler_failure_is_logged_and_answered_witness :
  "./commands/ping" = "./commands/" +:+ "ping"
  /\ onInteractionCreate
       {| isCommand := true; commandName := "ping";
          execute_failure := Some "Error: boom"; reply_failure := None |} []
     = (Normal tt, [],
        [Execute "./commands/ping";
         Log ("Error handling command " +:+ quote +:+ "ping"
              +:+ quote +:+ ": " +:+ "Error: boom");
         Reply "An error occurred while processing the command."]).
Proof.
  apply (handler_failure_is_logged_and_answered
           {| isCommand := true; commandName := "ping";
              execute_failure := Some "Error: boom";
              reply_failure := None |} "./commands/ping" "Error: boom" []).
  - reflexivity.
  - reflexivity.
  - reflexivity.
Defined.

(** X12: a command file without a [setup] function is reported by
    [loadCommands] as having an invalid structure, and its [data] is
    added to [commands] all the same, so [refreshSlashCommands] registers
    it; when its name is none of [ping], [hello], [help] and [info], an
    interaction for that command is dropped by the handler of
    [interactionCreate]: nothing is executed, nothing is logged, no reply
    is sent.  [commands/setjobs.js] is such a file. *)
Theorem command_registered_but_never_handled
    env files cs file m d i renv id :
  existsSync env "./commands" = true ->
  readdirSync env "./commands" = Normal files ->
  file ∈ files ->
  endsWith file ".js" = true ->
  required env ("./commands/" +:+ file) = Normal m ->
  module_setup m = NoSetup ->
  module_data m = Some d ->
  handler_of (data_name d) = None ->
  commandName i = data_name d ->
  application renv = Fetched id ->
  exists cs' acts acts',
    loadCommands env cs = (Normal tt, cs', acts)
    /\ "Invalid command structure in " +:+ file +:+ "." ∈ log_messages acts
    /\ Some d ∈ cs'
    /\ refreshSlashCommands renv cs' = (Normal tt, cs', acts')
    /\ PutCommands ("/applications/" +:+ id +:+ "/commands") cs' ∈ acts'
    /\ onInteractionCreate i cs' = (Normal tt, cs', []).
Proof.
  intros He Hd Hin Hjs Hreq Hsetup Hdata Hh Hname Happ.
  assert (Hjs' : file ∈ List.filter (fun f => endsWith f ".js") files).
  { apply list_elem_of_In, List.filter_In.
    split; [apply list_elem_of_In; exact Hin | exact Hjs]. }
  destruct (for_of_loadCommand env
              (List.filter (fun f => endsWith f ".js") files) cs)
    as (acts & Hload & Hlog & _).
  rewrite <- (loadCommands_for_of env files cs He Hd) in Hload.
  destruct (refreshSlashCommands_normal renv
              (cs ++ omap (registered env)
                       (List.filter (fun f => endsWith f ".js") files)))
    as [acts' Hrefresh].
  eexists _, acts, acts'. split; [exact Hload|]. split_and!.
  - rewrite Hlog.
    assert (Hrep : report env file
                   = "Invalid command structure in " +:+ file +:+ ".")
      by (unfold report; rewrite Hreq, Hsetup; reflexivity).
    rewrite <- Hrep. apply list_elem_of_fmap_2. exact Hjs'.
  - apply elem_of_app. right. apply list_elem_of_omap.
    exists file. split; [exact Hjs'|].
    unfold registered. rewrite Hreq, Hsetup, Hdata. reflexivity.
  - exact Hrefresh.
  - revert Hrefresh. destruct renv as [app [pf|]]; cbn in Happ; subst app;
      unfold_k; cbn; intros [= <-];
      apply elem_of_cons; right; apply elem_of_cons; left; reflexivity.
  - unfold_k. rewrite Hname, Hh. destruct (isCommand i); reflexivity.
Qed.

Lemma command_registered_but_never_handled_witness :
  exists cs' acts acts',
    loadCommands setjobs_folder [] = (Normal tt, cs', acts)
    /\ "Invalid command structure in " +:+ "setjobs.js" +:+ "."
       ∈ log_messages acts
    /\ Some {| data_name := "setjobs";
               data_description := "Select the jobs which apply to you" |}
       ∈ cs'
    /\ refreshSlashCommands
         {| application := Fetched "42"; put_failure := None |} cs'
       = (Normal tt, cs', acts')
    /\ PutCommands ("/applications/" +:+ "42" +:+ "/commands") cs' ∈ acts'
    /\ onInteractionCreate
         {| isCommand := true; commandName := "setjobs";
            execute_failure := None; reply_failure := None |} cs'
       = (Normal tt, cs', []).
Proof.
  apply (command_registered_but_never_handled setjobs_folder
           ["readme.md"; "setjobs.js"] [] "setjobs.js" setjobs
           {| data_name := "setjobs";
              data_description := "Select the jobs which apply to you" |}
           {| isCommand := true; commandName := "setjobs";
              execute_failure := None; reply_failure := None |}
           {| application := Fetched "42"; put_failure := None |} "42").
  - reflexivity.
  - reflexivity.
  - apply elem_of_cons. right. apply elem_of_cons. left. reflexivity.
  - reflexivity.
  - reflexivity.
  - reflexivity.
  - reflexivity.
  - reflexivity.
  - reflexivity.
  - reflexivity.
Defined.
